(** * Verification of [symbolic_pymc.tensorflow.printing]

    A shallow embedding of the graph printer ([TFlowPrinter], [tf_dprint],
    [_tf_dprint]) and the properties of its traversal: header lines,
    scoped indentation, the set of already printed subgraphs, the constant
    branch and the entry point's check. *)

From Stdlib Require Import String Ascii List ZArith Bool Lia DecimalString.
Import ListNotations.
Local Open Scope string_scope.
Local Open Scope list_scope.

(** ** Python values read by the printer *)

(** The exceptions the printer meets: the two classes caught around the shape
    accessor, [TypeError], and any other class (given by name) that derives
    from none of them. *)
Inductive exn : Type :=
| ValueError (msg : string)
| AttributeError (msg : string)
| TypeError (msg : string)
| OtherError (cls msg : string).

(** An attribute read or a call that either yields a value or raises. *)
Inductive access (A : Type) : Type :=
| Got (a : A)
| Raises (e : exn).
Arguments Got {A} a.
Arguments Raises {A} e.

(** A numeric payload: its dimensions and its elements in row-major order. *)
Record ndarray : Type := MkArray { arr_shape : list nat; arr_data : list Z }.

Definition size (a : ndarray) : nat := length (arr_data a).

(** [obj.value_index]: an [int], or a logic variable in a meta tensor (given
    by its [str]). *)
Inductive slot : Type :=
| SlotInt (i : Z)
| SlotVar (repr : string).

(** [obj.dtype]: an object with a [name] attribute, or one without it (given
    by its [str]). *)
Inductive dtype_field : Type :=
| DtypeNamed (name : string)
| DtypeRaw (repr : string).

(** [obj.shape.as_list()]: a list of dimensions ([None] when a dimension is
    unknown), or the exception raised on the way. *)
Definition shape_field : Type := access (list (option Z)).

(** [op.node_def]: a logic variable, or a definition whose ["value"]
    attribute is looked up. *)
Inductive node_def_field : Type :=
| NodeDefVar (repr : string)
| NodeDef (value : access ndarray).

(** Objects handed to [_tf_dprint].  [tensor] stands for both [tf.Tensor]
    ([concrete = true]) and [TFlowMetaTensor]; [operation] for [tf.Operation]
    and [TFlowMetaOp].  [ident] is the Python object identity: two tensors
    with equal fields and different [ident] are distinct objects. *)
Inductive pyobj : Type :=
| PyStr (s : string)
| PyOther (repr : string)
| PyList (elems : pylist)
| PyTensor (t : tensor)
| PyOp (o : operation)
with tensor : Type :=
| MkTensor (ident : nat) (concrete : bool) (op : op_field)
           (value_index : slot) (dtype : dtype_field) (shape : shape_field)
           (name : string) (eval : access ndarray)
with op_field : Type :=
| OpVar (repr : string)
| OpRaises (e : exn)
| OpNode (o : operation)
with operation : Type :=
| MkOp (type : string) (inputs : inputs_field) (node_def : node_def_field)
with inputs_field : Type :=
| InputsVar (repr : string)
| Inputs (l : pylist)
with pylist : Type :=
| pnil
| pcons (x : pyobj) (r : pylist).

Scheme pyobj_mut := Induction for pyobj Sort Prop
with tensor_mut := Induction for tensor Sort Prop
with op_field_mut := Induction for op_field Sort Prop
with operation_mut := Induction for operation Sort Prop
with inputs_field_mut := Induction for inputs_field Sort Prop
with pylist_mut := Induction for pylist Sort Prop.

Combined Scheme graph_mutind from pyobj_mut, tensor_mut, op_field_mut,
  operation_mut, inputs_field_mut, pylist_mut.

Definition ident (t : tensor) : nat :=
  match t with MkTensor i _ _ _ _ _ _ _ => i end.
Definition concrete (t : tensor) : bool :=
  match t with MkTensor _ c _ _ _ _ _ _ => c end.
Definition op (t : tensor) : op_field :=
  match t with MkTensor _ _ o _ _ _ _ _ => o end.
Definition value_index (t : tensor) : slot :=
  match t with MkTensor _ _ _ v _ _ _ _ => v end.
Definition dtype (t : tensor) : dtype_field :=
  match t with MkTensor _ _ _ _ d _ _ _ => d end.
Definition shape (t : tensor) : shape_field :=
  match t with MkTensor _ _ _ _ _ s _ _ => s end.
Definition name (t : tensor) : string :=
  match t with MkTensor _ _ _ _ _ _ n _ => n end.
Definition eval (t : tensor) : access ndarray :=
  match t with MkTensor _ _ _ _ _ _ _ e => e end.

Definition type (o : operation) : string :=
  match o with MkOp t _ _ => t end.
Definition inputs (o : operation) : inputs_field :=
  match o with MkOp _ i _ => i end.
Definition node_def (o : operation) : node_def_field :=
  match o with MkOp _ _ n => n end.

Fixpoint to_list (l : pylist) : list pyobj :=
  match l with
  | pnil => []
  | pcons x r => x :: to_list r
  end.

Fixpoint of_list (l : list pyobj) : pylist :=
  match l with
  | [] => pnil
  | x :: r => pcons x (of_list r)
  end.

Definition len (l : pylist) : nat := length (to_list l).

(** ** Text *)

Definition tab : string := String (ascii_of_nat 9) EmptyString.
Definition nl : string := String (ascii_of_nat 10) EmptyString.
Definition dquote : string := String (ascii_of_nat 34) EmptyString.

(** [str] of an [int]. *)
Definition str_int (z : Z) : string := NilZero.string_of_int (Z.to_int z).

Definition str_dim (d : option Z) : string :=
  match d with
  | Some z => str_int z
  | None => "None"
  end.

Fixpoint join (sep : string) (l : list string) : string :=
  match l with
  | [] => ""
  | [x] => x
  | x :: r => x ++ sep ++ join sep r
  end.

(** [str] of a list of dimensions. *)
Definition str_dims (l : list (option Z)) : string :=
  "[" ++ join ", " (map str_dim l) ++ "]".

Definition str_slot (v : slot) : string :=
  match v with
  | SlotInt i => str_int i
  | SlotVar r => r
  end.

(** [" " * n]: empty when [n] is not positive. *)
Definition spaces (n : Z) : string :=
  String.concat "" (repeat " " (Z.to_nat n)).

(** ** The printer *)

(** [buffer] holds the chunks written to the sink, oldest first.
    [printed_subgraphs] lists the tensors passed to [add], latest first;
    membership is what the set answers to [in]. *)
Record TFlowPrinter : Type := MkPrinter {
  buffer : list string;
  formatter : pyobj -> string;
  indentation : string;
  printed_subgraphs : list tensor
}.

Definition set_indentation (s : string) (p : TFlowPrinter) : TFlowPrinter :=
  MkPrinter (buffer p) (formatter p) s (printed_subgraphs p).

Definition write (s : string) (p : TFlowPrinter) : TFlowPrinter :=
  MkPrinter (buffer p ++ [s]) (formatter p) (indentation p)
            (printed_subgraphs p).

Definition add (t : tensor) (p : TFlowPrinter) : TFlowPrinter :=
  MkPrinter (buffer p) (formatter p) (indentation p)
            (t :: printed_subgraphs p).

(** [TFlowPrinter(formatter, buffer)]. *)
Definition TFlowPrinter_init (formatter : pyobj -> string)
  (buffer : list string) : TFlowPrinter :=
  MkPrinter buffer formatter "" [].

(** How a block of statements ends: it runs to its end, executes [return],
    or raises.  Each carries the printer as the block left it. *)
Inductive outcome : Type :=
| Normal (p : TFlowPrinter)
| Return (p : TFlowPrinter)
| Raise (e : exn) (p : TFlowPrinter).

Definition final (o : outcome) : TFlowPrinter :=
  match o with
  | Normal p | Return p | Raise _ p => p
  end.

Definition map_outcome (f : TFlowPrinter -> TFlowPrinter) (o : outcome)
  : outcome :=
  match o with
  | Normal p => Normal (f p)
  | Return p => Return (f p)
  | Raise e p => Raise e (f p)
  end.

(** A function call: [return] in the body ends the call normally. *)
Definition call (o : outcome) : outcome :=
  match o with
  | Return p => Normal p
  | _ => o
  end.

(** Sequencing of two statements. *)
Definition andthen (o : outcome) (k : TFlowPrinter -> outcome) : outcome :=
  match o with
  | Normal p => k p
  | _ => o
  end.

(** The argument of [indented]: an [int] or a string. *)
Inductive indent_arg : Type :=
| IndentInt (n : Z)
| IndentStr (s : string).

Definition increment (indent : indent_arg) : string :=
  match indent with
  | IndentInt n => spaces n
  | IndentStr s => s
  end.

(** [with printer.indented(indent): body].  The [finally] clause runs
    however the body ends. *)
Definition indented (indent : indent_arg) (body : TFlowPrinter -> outcome)
  (p : TFlowPrinter) : outcome :=
  let pre_indentation := indentation p in
  map_outcome (set_indentation pre_indentation)
    (body (set_indentation (indentation p ++ increment indent) p)).

Definition format (p : TFlowPrinter) (obj : pyobj) : string :=
  indentation p ++ formatter p obj.

Definition print (obj : pyobj) (p : TFlowPrinter) : TFlowPrinter :=
  write (format p obj) p.

(** [self.format(obj) + "\n"], the chunk [println] writes. *)
Definition line (p : TFlowPrinter) (obj : pyobj) : string :=
  format p obj ++ nl.

Definition println (obj : pyobj) (p : TFlowPrinter) : TFlowPrinter :=
  write (line p obj) p.

(** ** The traversal *)

Section Printing.

(** [tensor_eq u t] is [u == t] as the tensor classes define it (their
    [__eq__], with [__hash__] in agreement); the classes are declared in
    [tensorflow] and [symbolic_pymc.tensorflow.meta].  The tensors are
    taken to be hashable: a class whose [__hash__] raises is outside this
    development. *)
Variable tensor_eq : tensor -> tensor -> bool.

(** [str] on objects that are not strings. *)
Variable obj_str : pyobj -> string.

(** The two renderings of [numpy.array2string]: every element, or the
    summary that elides the middle of the array. *)
Variables render_full render_summary : ndarray -> string -> string.

(** Modelled from the spec: [numpy.array2string] is not part of the source;
    the array formatter takes a truncation threshold, the number of elements
    beyond which the formatting collapses, and a prefix for the alignment of
    continuation lines. *)
Definition array2string (a : ndarray) (threshold : Z) (prefix : string)
  : string :=
  if (threshold <? Z.of_nat (size a))%Z then render_summary a prefix
  else render_full a prefix.

(** [obj in printed_subgraphs]: an entry matches when it is the same object
    or compares equal to [obj]. *)
Definition same_key (t u : tensor) : bool :=
  Nat.eqb (ident u) (ident t) || tensor_eq u t.

Definition contains (t : tensor) (s : list tensor) : bool :=
  existsb (same_key t) s.

(** [str(obj.shape.as_list())] under [except (ValueError, AttributeError)]. *)
Definition shape_str (s : shape_field) : access string :=
  match s with
  | Got dims => Got (str_dims dims)
  | Raises (ValueError _) => Got "Unknown"
  | Raises (AttributeError _) => Got "Unknown"
  | Raises e => Raises e
  end.

(** [getattr(obj.op, "type", obj.op)] inside the format string. *)
Definition op_label (o : op_field) : access string :=
  match o with
  | OpVar r => Got r
  | OpNode o => Got (type o)
  | OpRaises e => Raises e
  end.

(** [getattr(obj.dtype, "name", obj.dtype)] inside the format string. *)
Definition dtype_label (d : dtype_field) : string :=
  match d with
  | DtypeNamed n => n
  | DtypeRaw r => r
  end.

Definition header (label : string) (obj : tensor) (shape_s : string)
  : string :=
  "Tensor(" ++ label ++ "):" ++ str_slot (value_index obj)
  ++ "," ++ tab ++ "dtype=" ++ dtype_label (dtype obj)
  ++ "," ++ tab ++ "shape=" ++ shape_s
  ++ "," ++ tab ++ dquote ++ name obj ++ dquote.

Definition prefix (obj : tensor) (shape_s : string) : access string :=
  match op_label (op obj) with
  | Got label => Got (header label obj shape_s)
  | Raises e => Raises e
  end.

(** The default case of the dispatcher. *)
Definition dprint_default (obj : pyobj) (printer : TFlowPrinter) : outcome :=
  Normal (println obj printer).

(** The body of the [Const] branch, run inside its indentation scope. *)
Definition const_body (obj : tensor) (o : operation) (printer : TFlowPrinter)
  : outcome :=
  let render numpy_val :=
    dprint_default
      (PyStr (array2string numpy_val 20 (indentation printer))) printer in
  if concrete obj then
    match eval obj with
    | Got numpy_val => render numpy_val
    | Raises e => Raise e printer
    end
  else
    match node_def o with
    | NodeDefVar r =>
        andthen (dprint_default (PyStr r) printer) Return
    | NodeDef (Got numpy_val) => render numpy_val
    | NodeDef (Raises e) => Raise e printer
    end.

(** Iterating over a logic variable raises [TypeError]; the text is the
    interpreter's and plays no part below. *)
Definition not_iterable : string := "object is not iterable".

Fixpoint _tf_dprint (obj : pyobj) (printer : TFlowPrinter) {struct obj}
  : outcome :=
  match obj with
  | PyTensor t => dprint_tensor t printer
  | PyOp o => dprint_op o printer
  | _ => dprint_default obj printer
  end

with dprint_tensor (obj : tensor) (printer : TFlowPrinter) {struct obj}
  : outcome :=
  match shape_str (shape obj) with
  | Raises e => Raise e printer
  | Got shape_s =>
  match prefix obj shape_s with
  | Raises e => Raise e printer
  | Got pre =>
  andthen (dprint_default (PyStr pre) printer) (fun printer =>
  match op obj with
  | OpVar _ => Normal printer
  | OpRaises e => Raise e printer
  | OpNode o =>
    match inputs o with
    | InputsVar r =>
        indented (IndentStr "|  ")
          (fun printer => dprint_default (PyStr r) printer) printer
    | Inputs l =>
        if Nat.ltb 0 (len l) then
          indented (IndentStr "|  ")
            (fun printer =>
               if negb (contains obj (printed_subgraphs printer)) then
                 dprint_op o (add obj printer)
               else dprint_default (PyStr "...") printer)
            printer
        else if String.eqb (type o) "Const" then
          call (indented (IndentStr "|  ") (const_body obj o) printer)
        else Normal printer
    end
  end)
  end
  end

with dprint_op (obj : operation) (printer : TFlowPrinter) {struct obj}
  : outcome :=
  match inputs obj with
  | InputsVar _ => Raise (TypeError not_iterable) printer
  | Inputs l => dprint_each l printer
  end

with dprint_each (l : pylist) (printer : TFlowPrinter) {struct l}
  : outcome :=
  match l with
  | pnil => Normal printer
  | pcons op_input r =>
      andthen (_tf_dprint op_input printer) (dprint_each r)
  end.

(** [str], the formatter of the default printer. *)
Definition py_str (obj : pyobj) : string :=
  match obj with
  | PyStr s => s
  | PyOther r => r
  | _ => obj_str obj
  end.

Definition not_available : string :=
  "TensorFlow Operation not available; try recreating the object with eager-mode disabled (e.g. within `tensorflow.python.eager.context.graph_mode`)".

(** The guard of the entry point: [obj.op] is tried on a [tf.Tensor]. *)
Definition check_op (obj : pyobj) : option exn :=
  match obj with
  | PyTensor t =>
      if concrete t then
        match op t with
        | OpRaises (AttributeError _) => Some (ValueError not_available)
        | OpRaises e => Some e
        | _ => None
        end
      else None
  | _ => None
  end.

Definition raised (o : outcome) : option exn :=
  match o with
  | Raise e _ => Some e
  | _ => None
  end.

(** [tf_dprint obj printer] run with [stdout] as the text written to
    [sys.stdout] so far.  The result is the exception raised, if any, the
    caller's printer and the text of [sys.stdout] after the call. *)
Definition tf_dprint (obj : pyobj) (printer : option TFlowPrinter)
  (stdout : list string) : option exn * option TFlowPrinter * list string :=
  match check_op obj with
  | Some e => (Some e, printer, stdout)
  | None =>
      match printer with
      | None =>
          let r := _tf_dprint obj (TFlowPrinter_init py_str stdout) in
          (raised r, None, buffer (final r))
      | Some p =>
          let r := _tf_dprint obj p in
          (raised r, Some (final r), stdout)
      end
  end.

(** ** Notions used in the statements *)

(** The tensor's operation is known and has one or more inputs: the branch
    that consults the set of printed subgraphs. *)
Definition has_inputs (t : tensor) : bool :=
  match op t with
  | OpNode o =>
      match inputs o with
      | Inputs l => Nat.ltb 0 (len l)
      | InputsVar _ => false
      end
  | _ => false
  end.

(** The tensors met when the traversal runs over an object without ever
    cutting a branch short. *)
Fixpoint tensors_of (obj : pyobj) : list tensor :=
  match obj with
  | PyTensor t => tensors_of_tensor t
  | PyOp o => tensors_of_op o
  | _ => []
  end
with tensors_of_tensor (t : tensor) : list tensor :=
  t :: match op t with
       | OpNode o => tensors_of_op o
       | _ => []
       end
with tensors_of_op (o : operation) : list tensor :=
  match inputs o with
  | Inputs l => tensors_of_each l
  | InputsVar _ => []
  end
with tensors_of_each (l : pylist) : list tensor :=
  match l with
  | pnil => []
  | pcons x r => tensors_of x ++ tensors_of_each r
  end.


(** Each tensor of [added] (latest first) was absent from the set when it
    was added on top of [base]. *)
Fixpoint fresh_adds (added base : list tensor) : bool :=
  match added with
  | [] => true
  | u :: r => negb (contains u (r ++ base)) && fresh_adds r base
  end.

(** No tensor was added while the set already held it. *)
Definition distinct (s : list tensor) : bool := fresh_adds s [].

(** How often [add] was called with the object [t]. *)
Definition adds_of (t : tensor) (s : list tensor) : nat :=
  length (filter (fun u => Nat.eqb (ident u) (ident t)) s).

(** Another object with the fields of [t]. *)
Definition with_ident (i : nat) (t : tensor) : tensor :=
  match t with
  | MkTensor _ c f v d s n e => MkTensor i c f v d s n e
  end.

(** The header as the specification words it, [Value(...)]. *)
Definition spec_header (label : string) (obj : tensor) (shape_s : string)
  : string :=
  "Value(" ++ label ++ "):" ++ str_slot (value_index obj)
  ++ "," ++ tab ++ "dtype=" ++ dtype_label (dtype obj)
  ++ "," ++ tab ++ "shape=" ++ shape_s
  ++ "," ++ tab ++ dquote ++ name obj ++ dquote.

(** What a run started from [p] and ended as [o] may have changed: lines
    were appended, each beginning with the indentation of [p]; tensors of
    [scope] with inputs were added, each absent before; the indentation and
    the formatter are those of [p]. *)
Record frame (scope : list tensor) (p : TFlowPrinter) (o : outcome)
  : Prop := MkFrame {
  fr_indentation : indentation (final o) = indentation p;
  fr_formatter : formatter (final o) = formatter p;
  fr_buffer : exists lines,
      buffer (final o) = buffer p ++ lines
      /\ Forall (fun ln => String.prefix (indentation p) ln = true) lines;
  fr_printed : exists added,
      printed_subgraphs (final o) = added ++ printed_subgraphs p
      /\ Forall (fun u => In u scope /\ has_inputs u = true) added
      /\ fresh_adds added (printed_subgraphs p) = true
}.

(** The [Const] branch retrieves the payload [a]: by evaluation for a
    [tf.Tensor], from the ["value"] attribute otherwise. *)
Definition retrievable (t : tensor) (o : operation) (a : ndarray) : Prop :=
  if concrete t then eval t = Got a else node_def o = NodeDef (Got a).

(** The printer inside one more [with printer.indented("|  ")]. *)
Definition inner (p : TFlowPrinter) : TFlowPrinter :=
  set_indentation (indentation p ++ "|  ") p.

(** Nested [with printer.indented(...)] blocks, outermost first. *)
Definition nested (indents : list indent_arg)
  (body : TFlowPrinter -> outcome) : TFlowPrinter -> outcome :=
  fold_right indented body indents.

(** The tensor case from the statement after the header on. *)
Definition after_header (obj : tensor) (printer : TFlowPrinter) : outcome :=
  match op obj with
  | OpVar _ => Normal printer
  | OpRaises e => Raise e printer
  | OpNode o =>
    match inputs o with
    | InputsVar r =>
        indented (IndentStr "|  ")
          (fun printer => dprint_default (PyStr r) printer) printer
    | Inputs l =>
        if Nat.ltb 0 (len l) then
          indented (IndentStr "|  ")
            (fun printer =>
               if negb (contains obj (printed_subgraphs printer)) then
                 dprint_op o (add obj printer)
               else dprint_default (PyStr "...") printer)
            printer
        else if String.eqb (type o) "Const" then
          call (indented (IndentStr "|  ") (const_body obj o) printer)
        else Normal printer
    end
  end.

(** The header of a tensor, or the exception raised while it is built. *)
Definition the_header (t : tensor) : access string :=
  match shape_str (shape t) with
  | Got shape_s => prefix t shape_s
  | Raises e => Raises e
  end.

(** The tensor prints its header and nothing below it: its operation is a
    logic variable, or has no input and is not a constant. *)
Definition header_only (t : tensor) : bool :=
  match op t with
  | OpVar _ => true
  | OpRaises _ => false
  | OpNode o =>
      match inputs o with
      | Inputs pnil => negb (String.eqb (type o) "Const")
      | _ => false
      end
  end.

(** [chain s t ts hs]: from [t] each operation takes the next tensor of [ts]
    as its only input, down to one that prints its header only; [hs] are
    the headers; no tensor along the way is found in the set, which is [s]
    when [t] is reached. *)
Inductive chain : list tensor -> tensor -> list tensor -> list string
  -> Prop :=
| chain_end (s : list tensor) (t : tensor) (h : string) :
    the_header t = Got h -> header_only t = true ->
    chain s t [t] [h]
| chain_link (s : list tensor) (t u : tensor) (o : operation) (h : string)
    (ts : list tensor) (hs : list string) :
    the_header t = Got h ->
    op t = OpNode o -> inputs o = Inputs (pcons (PyTensor u) pnil) ->
    contains t s = false ->
    chain (t :: s) u ts hs ->
    chain s t (t :: ts) (h :: hs).

(** The lines of a chain: each header one scope below the one before. *)
Fixpoint chain_lines (fmt : pyobj -> string) (indent : string)
  (hs : list string) : list string :=
  match hs with
  | [] => []
  | h :: r =>
      (indent ++ fmt (PyStr h) ++ nl)%string
      :: chain_lines fmt (indent ++ "|  ") r
  end.

End Printing.

(** The printer with [before] written to its sink ahead of its own text. *)
Definition push (before : list string) (p : TFlowPrinter) : TFlowPrinter :=
  MkPrinter (before ++ buffer p) (formatter p) (indentation p)
            (printed_subgraphs p).


(** Concatenation of input lists. *)
Fixpoint papp (l1 l2 : pylist) : pylist :=
  match l1 with
  | pnil => l2
  | pcons x r => pcons x (papp r l2)
  end.

(** The chunk is a line: it ends with the newline character. *)
Definition ends_with_nl (ln : string) : Prop :=
  exists body : string, ln = (body ++ nl)%string.

(** ** A sample graph *)

(** Tensor classes whose [__eq__] is object identity. *)
Definition ex_eq (u t : tensor) : bool := Nat.eqb (ident u) (ident t).

(** Tensor classes whose [__eq__] compares the graph-wide name. *)
Definition ex_name_eq (u t : tensor) : bool := String.eqb (name u) (name t).

(** A node definition without a ["value"] attribute. *)
Definition ex_no_value : access ndarray :=
  Raises (OtherError "KeyError" "value").

Definition ex_full (a : ndarray) (pre : string) : string :=
  "[" ++ join " " (map str_int (arr_data a)) ++ "]".

Definition ex_summary (a : ndarray) (pre : string) : string :=
  "[" ++ join " " (map str_int (firstn 3 (arr_data a))) ++ " ... "
  ++ join " " (map str_int (skipn (size a - 3) (arr_data a))) ++ "]".

Definition ex_str (obj : pyobj) : string :=
  match obj with
  | PyList _ => "[<tf.Tensor 'x:0' shape=(2, ?) dtype=float32>]"
  | _ => "<object>"
  end.

Definition ex_node (i : nat) (ty nm : string) (ins : list pyobj) : tensor :=
  MkTensor i true
    (OpNode (MkOp ty (Inputs (of_list ins)) (NodeDef ex_no_value)))
    (SlotInt 0) (DtypeNamed "float32") (Got [Some 2%Z; None]) nm
    (Raises (OtherError "InvalidArgumentError" "feed a value")).

Definition ex_const (i : nat) (nm : string) (data : list Z) : tensor :=
  MkTensor i true (OpNode (MkOp "Const" (Inputs pnil) (NodeDef ex_no_value)))
    (SlotInt 0) (DtypeNamed "int32") (Got [Some (Z.of_nat (length data))])
    nm (Got (MkArray [length data] data)).

Definition ex_x : tensor := ex_node 1 "Placeholder" "x:0" [].
Definition ex_c : tensor := ex_const 2 "c:0" [1; 2; 3]%Z.
Definition ex_s : tensor :=
  ex_node 3 "Add" "s:0" [PyTensor ex_x; PyTensor ex_c].
Definition ex_a : tensor := ex_node 4 "Neg" "a:0" [PyTensor ex_s].
Definition ex_b : tensor := ex_node 5 "Exp" "b:0" [PyTensor ex_s].
Definition ex_r : tensor :=
  ex_node 6 "Mul" "r:0" [PyTensor ex_a; PyTensor ex_b].

(** A second object with the fields of [ex_s]. *)
Definition ex_s' : tensor :=
  ex_node 7 "Add" "s:0" [PyTensor ex_x; PyTensor ex_c].

(** A constant of 21 elements. *)
Definition ex_big : tensor :=
  ex_const 8 "big:0" (map Z.of_nat (seq 0 21)).

(** A meta tensor whose operation is a logic variable. *)
Definition ex_var : tensor :=
  MkTensor 9 false (OpVar "~_1") (SlotVar "~_2") (DtypeRaw "~_3")
    (Raises (AttributeError "'Var' object has no attribute 'as_list'"))
    "~_4" (Raises (AttributeError "eval")).

(** An eager tensor: reading [op] raises [AttributeError]. *)
Definition ex_eager : tensor :=
  MkTensor 10 true
    (OpRaises (AttributeError
       "Tensor.op is meaningless when eager execution is enabled."))
    (SlotInt 0) (DtypeNamed "float32") (Got [Some 2%Z]) "e:0"
    (Raises (AttributeError "eval")).

(** A tensor whose shape accessor raises neither of the caught classes. *)
Definition ex_bad_shape : tensor :=
  MkTensor 11 false
    (OpNode (MkOp "Neg" (Inputs (of_list [PyTensor ex_x]))
               (NodeDef ex_no_value)))
    (SlotInt 0) (DtypeNamed "float32") (Raises (TypeError "as_list"))
    "n:0" (Raises (AttributeError "eval")).

(** A tensor of unknown rank: [as_list] raises [ValueError]. *)
Definition ex_unknown : tensor :=
  MkTensor 12 true
    (OpNode (MkOp "Neg" (Inputs (of_list [PyTensor ex_x]))
               (NodeDef ex_no_value)))
    (SlotInt 0) (DtypeNamed "float32")
    (Raises (ValueError "as_list() is not defined on an unknown TensorShape."))
    "u:0" (Raises (AttributeError "eval")).

Definition ex_printer : TFlowPrinter := TFlowPrinter_init (py_str ex_str) [].

(** A graph tensor whose [op] accessor fails otherwise than by
    [AttributeError]. *)
Definition ex_broken : tensor :=
  MkTensor 19 true (OpRaises (OtherError "RuntimeError" "graph is closed"))
    (SlotInt 0) (DtypeNamed "float32") (Got [Some 2%Z]) "z:0"
    (Raises (AttributeError "eval")).



(** A chain of two operations over the placeholder [ex_x]. *)
Definition ex_n1 : tensor := ex_node 13 "Exp" "n1:0" [PyTensor ex_x].
Definition ex_n2 : tensor := ex_node 14 "Neg" "n2:0" [PyTensor ex_n1].

(** A graph tensor fed by the eager tensor. *)
Definition ex_over_eager : tensor :=
  ex_node 15 "Neg" "w:0" [PyTensor ex_eager].

(** A meta tensor whose operation has a logic variable for inputs. *)
Definition ex_inputs_var : tensor :=
  MkTensor 16 false (OpNode (MkOp "Add" (InputsVar "~_5") (NodeDefVar "~_6")))
    (SlotInt 0) (DtypeNamed "float32") (Got [None]) "y:0"
    (Raises (AttributeError "eval")).

(** A meta constant whose node definition is a logic variable. *)
Definition ex_const_var : tensor :=
  MkTensor 17 false (OpNode (MkOp "Const" (Inputs pnil) (NodeDefVar "~_7")))
    (SlotInt 0) (DtypeNamed "int32") (Got []) "k:0"
    (Raises (AttributeError "eval")).

(** A graph constant whose evaluation fails. *)
Definition ex_const_fail : tensor :=
  MkTensor 18 true (OpNode (MkOp "Const" (Inputs pnil) (NodeDef ex_no_value)))
    (SlotInt 0) (DtypeNamed "int32") (Got []) "f:0"
    (Raises (OtherError "RuntimeError" "session closed")).

(** ** Properties *)

Section Properties.

Variable tensor_eq : tensor -> tensor -> bool.
Variable obj_str : pyobj -> string.
Variables render_full render_summary : ndarray -> string -> string.

Local Abbreviation visit := (_tf_dprint tensor_eq render_full render_summary).
Local Abbreviation visit_tensor :=
  (dprint_tensor tensor_eq render_full render_summary).
Local Abbreviation visit_op := (dprint_op tensor_eq render_full render_summary).
Local Abbreviation visit_each :=
  (dprint_each tensor_eq render_full render_summary).
Local Abbreviation member := (contains tensor_eq).
Local Abbreviation framed := (frame tensor_eq).
Local Abbreviation scope_str := (IndentStr "|  ").

(** *** Strings *)

Lemma append_assoc (a b c : string) :
  ((a ++ b) ++ c = a ++ b ++ c)%string.
Proof.
  induction a as [|ch a IH]; simpl; [reflexivity | now rewrite IH].
Qed.

Lemma append_nil_r (a : string) : (a ++ "" = a)%string.
Proof.
  induction a as [|ch a IH]; simpl; [reflexivity | now rewrite IH].
Qed.

Lemma prefix_append (a b : string) :
  String.prefix a (a ++ b)%string = true.
Proof.
  induction a as [|ch a IH]; simpl.
  - now destruct b.
  - destruct (ascii_dec ch ch); [exact IH | congruence].
Qed.

Lemma prefix_shorter (a b ln : string) :
  String.prefix (a ++ b)%string ln = true -> String.prefix a ln = true.
Proof.
  revert ln; induction a as [|ch a IH]; intros ln H.
  - now destruct ln.
  - destruct ln as [|ch' ln]; [discriminate|]. simpl in *.
    destruct (ascii_dec ch ch'); [now apply IH | discriminate].
Qed.

(** *** Unfolding the dispatcher *)

Lemma visit_tensor_eq (obj : tensor) (printer : TFlowPrinter) :
  visit_tensor obj printer =
  match shape_str (shape obj) with
  | Raises e => Raise e printer
  | Got shape_s =>
  match prefix obj shape_s with
  | Raises e => Raise e printer
  | Got pre =>
  andthen (dprint_default (PyStr pre) printer) (fun printer =>
  match op obj with
  | OpVar _ => Normal printer
  | OpRaises e => Raise e printer
  | OpNode o =>
    match inputs o with
    | InputsVar r =>
        indented scope_str
          (fun printer => dprint_default (PyStr r) printer) printer
    | Inputs l =>
        if Nat.ltb 0 (len l) then
          indented scope_str
            (fun printer =>
               if negb (member obj (printed_subgraphs printer)) then
                 visit_op o (add obj printer)
               else dprint_default (PyStr "...") printer)
            printer
        else if String.eqb (type o) "Const" then
          call (indented scope_str
                  (const_body render_full render_summary obj o) printer)
        else Normal printer
    end
  end)
  end
  end.
Proof. destruct obj; reflexivity. Qed.

Lemma visit_op_eq (obj : operation) (printer : TFlowPrinter) :
  visit_op obj printer =
  match inputs obj with
  | InputsVar _ => Raise (TypeError not_iterable) printer
  | Inputs l => visit_each l printer
  end.
Proof. destruct obj; reflexivity. Qed.

Lemma visit_each_cons (x : pyobj) (r : pylist) (printer : TFlowPrinter) :
  visit_each (pcons x r) printer
  = andthen (visit x printer) (visit_each r).
Proof. reflexivity. Qed.

Lemma visit_each_nil (printer : TFlowPrinter) :
  visit_each pnil printer = Normal printer.
Proof. reflexivity. Qed.

Lemma visit_PyTensor (t : tensor) (printer : TFlowPrinter) :
  visit (PyTensor t) printer = visit_tensor t printer.
Proof. reflexivity. Qed.

(** *** Reading the fields of a printer *)

Lemma printer_ext (p q : TFlowPrinter) :
  buffer p = buffer q -> formatter p = formatter q ->
  indentation p = indentation q ->
  printed_subgraphs p = printed_subgraphs q -> p = q.
Proof. destruct p, q. simpl. congruence. Qed.

Lemma buffer_set_indentation (i : string) (p : TFlowPrinter) :
  buffer (set_indentation i p) = buffer p.
Proof. reflexivity. Qed.

Lemma buffer_inner (p : TFlowPrinter) : buffer (inner p) = buffer p.
Proof. reflexivity. Qed.

Lemma buffer_add (t : tensor) (p : TFlowPrinter) :
  buffer (add t p) = buffer p.
Proof. reflexivity. Qed.

Lemma buffer_println (obj : pyobj) (p : TFlowPrinter) :
  buffer (println obj p) = buffer p ++ [line p obj].
Proof. reflexivity. Qed.

Lemma formatter_set_indentation (i : string) (p : TFlowPrinter) :
  formatter (set_indentation i p) = formatter p.
Proof. reflexivity. Qed.

Lemma formatter_inner (p : TFlowPrinter) : formatter (inner p) = formatter p.
Proof. reflexivity. Qed.

Lemma formatter_add (t : tensor) (p : TFlowPrinter) :
  formatter (add t p) = formatter p.
Proof. reflexivity. Qed.

Lemma formatter_println (obj : pyobj) (p : TFlowPrinter) :
  formatter (println obj p) = formatter p.
Proof. reflexivity. Qed.

Lemma indentation_set_indentation (i : string) (p : TFlowPrinter) :
  indentation (set_indentation i p) = i.
Proof. reflexivity. Qed.

Lemma indentation_inner (p : TFlowPrinter) :
  indentation (inner p) = (indentation p ++ "|  ")%string.
Proof. reflexivity. Qed.

Lemma indentation_add (t : tensor) (p : TFlowPrinter) :
  indentation (add t p) = indentation p.
Proof. reflexivity. Qed.

Lemma indentation_println (obj : pyobj) (p : TFlowPrinter) :
  indentation (println obj p) = indentation p.
Proof. reflexivity. Qed.

Lemma printed_set_indentation (i : string) (p : TFlowPrinter) :
  printed_subgraphs (set_indentation i p) = printed_subgraphs p.
Proof. reflexivity. Qed.

Lemma printed_inner (p : TFlowPrinter) :
  printed_subgraphs (inner p) = printed_subgraphs p.
Proof. reflexivity. Qed.

Lemma printed_add (t : tensor) (p : TFlowPrinter) :
  printed_subgraphs (add t p) = t :: printed_subgraphs p.
Proof. reflexivity. Qed.

Lemma printed_println (obj : pyobj) (p : TFlowPrinter) :
  printed_subgraphs (println obj p) = printed_subgraphs p.
Proof. reflexivity. Qed.

Lemma line_fields (p : TFlowPrinter) (obj : pyobj) :
  line p obj = (indentation p ++ formatter p obj ++ nl)%string.
Proof. unfold line, format. apply append_assoc. Qed.

Ltac read_fields :=
  repeat (progress (rewrite
    ?buffer_set_indentation, ?buffer_inner, ?buffer_add, ?buffer_println,
    ?formatter_set_indentation, ?formatter_inner, ?formatter_add,
    ?formatter_println, ?indentation_set_indentation, ?indentation_inner,
    ?indentation_add, ?indentation_println, ?printed_set_indentation,
    ?printed_inner, ?printed_add, ?printed_println)).

(** *** Membership in the set *)

Lemma member_app (t : tensor) (a b : list tensor) :
  member t (a ++ b) = member t a || member t b.
Proof. apply existsb_app. Qed.

Lemma same_key_refl (t : tensor) : same_key tensor_eq t t = true.
Proof. unfold same_key. now rewrite Nat.eqb_refl. Qed.

Lemma member_head (t : tensor) (s : list tensor) : member t (t :: s) = true.
Proof. simpl. now rewrite same_key_refl. Qed.

Lemma fresh_adds_app (a b base : list tensor) :
  fresh_adds tensor_eq a (b ++ base) = true ->
  fresh_adds tensor_eq b base = true ->
  fresh_adds tensor_eq (a ++ b) base = true.
Proof.
  induction a as [|u a IH]; simpl; intros Ha Hb; [exact Hb|].
  apply andb_true_iff in Ha as [Hu Ha].
  rewrite <- app_assoc, Hu. simpl. now apply IH.
Qed.

(** *** Frames compose *)

Lemma framed_here (scope : list tensor) (p : TFlowPrinter) :
  framed scope p (Normal p).
Proof.
  split; simpl; try reflexivity.
  - exists []. now rewrite app_nil_r.
  - exists []. repeat split. constructor.
Qed.

Lemma framed_raise (scope : list tensor) (e : exn) (p : TFlowPrinter) :
  framed scope p (Raise e p).
Proof.
  split; simpl; try reflexivity.
  - exists []. now rewrite app_nil_r.
  - exists []. repeat split. constructor.
Qed.

Lemma framed_final (scope : list tensor) (p : TFlowPrinter) (o o' : outcome) :
  final o = final o' -> framed scope p o -> framed scope p o'.
Proof.
  intros E [H1 H2 H3 H4]. split; rewrite <- E; assumption.
Qed.

Lemma framed_trans (scope : list tensor) (p q : TFlowPrinter) (o : outcome) :
  framed scope p (Normal q) -> framed scope q o -> framed scope p o.
Proof.
  intros [I1 F1 (l1 & B1 & P1) (a1 & S1 & In1 & Fr1)]
         [I2 F2 (l2 & B2 & P2) (a2 & S2 & In2 & Fr2)].
  simpl in *. split.
  - congruence.
  - congruence.
  - exists (l1 ++ l2). split.
    + rewrite B2, B1. now rewrite app_assoc.
    + apply Forall_app. split; [exact P1|]. now rewrite I1 in P2.
  - exists (a2 ++ a1). split; [|split].
    + rewrite S2, S1. now rewrite app_assoc.
    + apply Forall_app. now split.
    + apply fresh_adds_app; [now rewrite <- S1 | exact Fr1].
Qed.

Lemma framed_andthen (scope : list tensor) (p : TFlowPrinter) (o : outcome)
  (k : TFlowPrinter -> outcome) :
  framed scope p o -> (forall q, framed scope q (k q)) ->
  framed scope p (andthen o k).
Proof.
  intros Ho Hk. destruct o as [q|q|e q]; simpl; try exact Ho.
  eapply framed_trans; [exact Ho | apply Hk].
Qed.

Lemma framed_println (scope : list tensor) (obj : pyobj) (p : TFlowPrinter) :
  framed scope p (dprint_default obj p).
Proof.
  split; simpl; try reflexivity.
  - eexists. split; [reflexivity|]. constructor; [|constructor].
    unfold line, format. rewrite append_assoc. apply prefix_append.
  - exists []. repeat split. constructor.
Qed.

Lemma framed_call (scope : list tensor) (p : TFlowPrinter) (o : outcome) :
  framed scope p o -> framed scope p (call o).
Proof. apply framed_final. now destruct o. Qed.

Lemma framed_indented (scope : list tensor) (indent : indent_arg)
  (body : TFlowPrinter -> outcome) (p : TFlowPrinter) :
  (forall q, framed scope q (body q)) ->
  framed scope p (indented indent body p).
Proof.
  intros Hb. unfold indented.
  destruct (Hb (set_indentation (indentation p ++ increment indent) p))
    as [I1 F1 (l1 & B1 & P1) (a1 & S1 & In1 & Fr1)].
  simpl in *.
  split.
  - now destruct (body _).
  - destruct (body _); exact F1.
  - exists l1. split; [destruct (body _); exact B1|].
    eapply Forall_impl; [|exact P1]. simpl. intros ln.
    apply prefix_shorter.
  - exists a1. split; [destruct (body _); exact S1|]. now split.
Qed.

Lemma framed_add (scope : list tensor) (obj : tensor) (p : TFlowPrinter)
  (o : outcome) :
  In obj scope -> has_inputs obj = true ->
  member obj (printed_subgraphs p) = false ->
  framed scope (add obj p) o -> framed scope p o.
Proof.
  intros Hin Hhas Hnew [I1 F1 (l1 & B1 & P1) (a1 & S1 & In1 & Fr1)].
  simpl in *. split; try assumption.
  - now exists l1.
  - exists (a1 ++ [obj]). split; [|split].
    + now rewrite <- app_assoc.
    + apply Forall_app. split; [exact In1|]. now repeat constructor.
    + apply fresh_adds_app; [exact Fr1|]. simpl. now rewrite Hnew.
Qed.

Lemma framed_weaken (s s' : list tensor) (p : TFlowPrinter) (o : outcome) :
  incl s s' -> framed s p o -> framed s' p o.
Proof.
  intros Hi [I1 F1 HB (a1 & S1 & In1 & Fr1)]. split; try assumption.
  exists a1. split; [exact S1|]. split; [|exact Fr1].
  eapply Forall_impl; [|exact In1]. simpl. intros u [Hu Hh].
  split; [now apply Hi | exact Hh].
Qed.

Lemma framed_const_body (scope : list tensor) (obj : tensor) (o : operation)
  (p : TFlowPrinter) :
  framed scope p (const_body render_full render_summary obj o p).
Proof.
  unfold const_body.
  destruct (concrete obj).
  - destruct (eval obj); [apply framed_println | apply framed_raise].
  - destruct (node_def o) as [r|[a|e]].
    + simpl. eapply framed_final; [|apply (framed_println scope (PyStr r))].
      reflexivity.
    + apply framed_println.
    + apply framed_raise.
Qed.

(** *** The frame of every run of the dispatcher *)

Lemma framed_all :
  (forall x p, framed (tensors_of x) p (visit x p))
  /\ (forall t p, framed (tensors_of_tensor t) p (visit_tensor t p))
  /\ (forall f, match f with
                | OpNode o =>
                    forall p, framed (tensors_of_op o) p (visit_op o p)
                | _ => True
                end)
  /\ (forall o p, framed (tensors_of_op o) p (visit_op o p))
  /\ (forall i, match i with
                | Inputs l =>
                    forall p, framed (tensors_of_each l) p (visit_each l p)
                | InputsVar _ => True
                end)
  /\ (forall l p, framed (tensors_of_each l) p (visit_each l p)).
Proof.
  apply (graph_mutind
    (fun x => forall p, framed (tensors_of x) p (visit x p))
    (fun t => forall p, framed (tensors_of_tensor t) p (visit_tensor t p))
    (fun f => match f with
              | OpNode o =>
                  forall p, framed (tensors_of_op o) p (visit_op o p)
              | _ => True
              end)
    (fun o => forall p, framed (tensors_of_op o) p (visit_op o p))
    (fun i => match i with
              | Inputs l =>
                  forall p, framed (tensors_of_each l) p (visit_each l p)
              | InputsVar _ => True
              end)
    (fun l => forall p, framed (tensors_of_each l) p (visit_each l p))).
  - intros s p. apply framed_println.
  - intros r p. apply framed_println.
  - intros l _ p. apply framed_println.
  - intros t IH p. apply IH.
  - intros o IH p. apply IH.
  - intros i c f IHf v d sh n ev p.
    set (obj := MkTensor i c f v d sh n ev).
    rewrite visit_tensor_eq.
    destruct (shape_str (shape obj)) as [shape_s|e]; [|apply framed_raise].
    destruct (prefix obj shape_s) as [pre|e]; [|apply framed_raise].
    apply framed_andthen; [apply framed_println|]. intros q.
    change (op obj) with f.
    change (tensors_of_tensor obj)
      with (obj :: match f with OpNode o => tensors_of_op o | _ => [] end).
    destruct f as [r|e|o]; [apply framed_here | apply framed_raise |].
    destruct (inputs o) as [r|l] eqn:Ei.
    + apply framed_indented. intros q'. apply framed_println.
    + destruct (Nat.ltb 0 (len l)) eqn:El.
      * apply framed_indented. intros q'.
        destruct (member obj (printed_subgraphs q')) eqn:Em; cbn [negb].
        -- apply framed_println.
        -- apply (framed_add _ obj); [now left | | exact Em |].
           ++ unfold has_inputs. simpl. now rewrite Ei.
           ++ eapply framed_weaken; [|apply IHf].
              intros u Hu. now right.
      * destruct (String.eqb (type o) "Const"); [|apply framed_here].
        apply framed_call, framed_indented. intros q'.
        apply framed_const_body.
  - intros r. exact I.
  - intros e. exact I.
  - intros o IH. exact IH.
  - intros ty i IHi nd p. rewrite visit_op_eq. simpl.
    destruct i as [r|l]; [apply framed_raise | apply IHi].
  - intros r. exact I.
  - intros l IH. exact IH.
  - intros p. apply framed_here.
  - intros x IHx r IHr p. rewrite visit_each_cons. simpl tensors_of_each.
    apply framed_andthen.
    + eapply framed_weaken; [|apply IHx]. intros u Hu.
      apply in_or_app. now left.
    + intros q. eapply framed_weaken; [|apply IHr]. intros u Hu.
      apply in_or_app. now right.
Qed.

(** *** Runs that read no raising accessor end normally *)



(** *** The branches of the tensor case *)

Lemma visit_tensor_first (t : tensor) (o : operation) (l : pylist)
  (sh : string) (p : TFlowPrinter) :
  op t = OpNode o -> inputs o = Inputs l -> Nat.ltb 0 (len l) = true ->
  shape_str (shape t) = Got sh ->
  member t (printed_subgraphs p) = false ->
  visit_tensor t p
  = map_outcome (set_indentation (indentation p))
      (visit_each l
         (add t (inner (println (PyStr (header (type o) t sh)) p)))).
Proof.
  intros Hop Hin Hlen Hsh Hmem.
  rewrite visit_tensor_eq, Hsh. unfold prefix. rewrite Hop. simpl.
  rewrite Hin, Hlen. unfold indented. simpl. rewrite Hmem. simpl.
  now rewrite visit_op_eq, Hin.
Qed.

Lemma visit_tensor_repeat (t : tensor) (o : operation) (l : pylist)
  (sh : string) (p : TFlowPrinter) :
  op t = OpNode o -> inputs o = Inputs l -> Nat.ltb 0 (len l) = true ->
  shape_str (shape t) = Got sh ->
  member t (printed_subgraphs p) = true ->
  visit_tensor t p
  = Normal (MkPrinter
              (buffer p ++ [line p (PyStr (header (type o) t sh));
                            line (inner p) (PyStr "...")])
              (formatter p) (indentation p) (printed_subgraphs p)).
Proof.
  intros Hop Hin Hlen Hsh Hmem.
  rewrite visit_tensor_eq, Hsh. unfold prefix. rewrite Hop. simpl.
  rewrite Hin, Hlen. unfold indented. simpl. rewrite Hmem. simpl.
  unfold set_indentation, println, write, line, format. simpl.
  now rewrite <- app_assoc.
Qed.

Lemma visit_tensor_const (t : tensor) (o : operation) (a : ndarray)
  (sh : string) (p : TFlowPrinter) :
  op t = OpNode o -> inputs o = Inputs pnil -> type o = "Const" ->
  shape_str (shape t) = Got sh ->
  retrievable t o a ->
  visit_tensor t p
  = Normal (MkPrinter
              (buffer p
               ++ [line p (PyStr (header (type o) t sh));
                   line (inner p)
                     (PyStr (array2string render_full render_summary a 20
                               (indentation (inner p))))])
              (formatter p) (indentation p) (printed_subgraphs p)).
Proof.
  intros Hop Hin Hty Hsh Hval.
  rewrite visit_tensor_eq, Hsh. unfold prefix. rewrite Hop. simpl.
  rewrite Hin, Hty. simpl. unfold indented, const_body.
  unfold retrievable in Hval.
  destruct (concrete t); rewrite Hval; simpl;
    unfold inner, set_indentation, println, write, line, format;
    simpl; now rewrite <- app_assoc.
Qed.

Lemma visit_tensor_inputs (t : tensor) (o : operation) (l : pylist)
  (sh : string) (p : TFlowPrinter) :
  op t = OpNode o -> inputs o = Inputs l -> Nat.ltb 0 (len l) = true ->
  shape_str (shape t) = Got sh ->
  visit_tensor t p
  = if member t (printed_subgraphs p) then
      Normal (MkPrinter
                (buffer p ++ [line p (PyStr (header (type o) t sh));
                              line (inner p) (PyStr "...")])
                (formatter p) (indentation p) (printed_subgraphs p))
    else
      map_outcome (set_indentation (indentation p))
        (visit_each l
           (add t (inner (println (PyStr (header (type o) t sh)) p)))).
Proof.
  intros Hop Hin Hlen Hsh.
  destruct (member t (printed_subgraphs p)) eqn:E.
  - now apply visit_tensor_repeat with (l := l).
  - now apply visit_tensor_first.
Qed.

(** *** Consequences of the frame *)

Lemma indented_lines (scope : list tensor) (indent : indent_arg)
  (body : TFlowPrinter -> outcome) (p : TFlowPrinter) :
  (forall q, framed scope q (body q)) ->
  exists rest,
    buffer (final (indented indent body p)) = buffer p ++ rest
    /\ Forall (fun ln =>
                 String.prefix (indentation p ++ increment indent) ln = true)
              rest.
Proof.
  intros Hb. unfold indented.
  destruct (Hb (set_indentation (indentation p ++ increment indent) p))
    as [_ _ (rest & B & P) _].
  exists rest. split; [now destruct (body _) | exact P].
Qed.

Lemma tensor_rest_lines (obj : tensor) (q : TFlowPrinter) :
  exists rest,
    buffer (final
      match op obj with
      | OpVar _ => Normal q
      | OpRaises e => Raise e q
      | OpNode o =>
        match inputs o with
        | InputsVar r =>
            indented scope_str
              (fun printer => dprint_default (PyStr r) printer) q
        | Inputs l =>
            if Nat.ltb 0 (len l) then
              indented scope_str
                (fun printer =>
                   if negb (member obj (printed_subgraphs printer)) then
                     visit_op o (add obj printer)
                   else dprint_default (PyStr "...") printer)
                q
            else if String.eqb (type o) "Const" then
              call (indented scope_str
                      (const_body render_full render_summary obj o) q)
            else Normal q
        end
      end) = buffer q ++ rest
    /\ Forall (fun ln => String.prefix (indentation q ++ "|  ") ln = true)
              rest.
Proof.
  assert (Hnone : exists rest : list string,
             buffer q = buffer q ++ rest
             /\ Forall (fun ln =>
                  String.prefix (indentation q ++ "|  ") ln = true) rest).
  { exists []. split; [now rewrite app_nil_r | constructor]. }
  destruct (op obj) as [r|e|o] eqn:Eop; try exact Hnone.
  destruct (inputs o) as [r|l] eqn:Ei.
  - apply (indented_lines []). intros q'. apply framed_println.
  - destruct (Nat.ltb 0 (len l)) eqn:El.
    + apply (indented_lines (tensors_of_tensor obj)). intros q'.
      destruct (member obj (printed_subgraphs q')) eqn:Em; cbn [negb].
      * apply framed_println.
      * assert (Hin : In obj (tensors_of_tensor obj))
          by (destruct obj; now left).
        apply (framed_add _ obj); [exact Hin | | exact Em |].
        -- unfold has_inputs. now rewrite Eop, Ei.
        -- eapply framed_weaken; [|apply framed_all].
           intros u Hu. destruct obj. simpl in Eop. subst.
           now right.
    + destruct (String.eqb (type o) "Const"); [|exact Hnone].
      destruct (indented_lines [] scope_str
                  (const_body render_full render_summary obj o) q)
        as (rest & B & P).
      { intros q'. apply framed_const_body. }
      exists rest. split; [|exact P].
      rewrite <- B. now destruct (indented _ _ _).
Qed.


Lemma visit_indentation (x : pyobj) (p : TFlowPrinter) :
  indentation (final (visit x p)) = indentation p.
Proof. apply framed_all. Qed.

Lemma visit_keeps_inputs_only (x : pyobj) (p : TFlowPrinter) :
  Forall (fun u => has_inputs u = true) (printed_subgraphs p) ->
  Forall (fun u => has_inputs u = true)
         (printed_subgraphs (final (visit x p))).
Proof.
  intros Hp. destruct (proj1 framed_all x p) as [_ _ _ (a & -> & Ha & _)].
  apply Forall_app. split; [|exact Hp].
  eapply Forall_impl; [|exact Ha]. now intros u [_ Hu].
Qed.

Lemma final_map_printed (i : string) (o : outcome) :
  printed_subgraphs (final (map_outcome (set_indentation i) o))
  = printed_subgraphs (final o).
Proof. now destruct o. Qed.

Lemma visit_distinct (x : pyobj) (p : TFlowPrinter) :
  distinct tensor_eq (printed_subgraphs p) = true ->
  distinct tensor_eq (printed_subgraphs (final (visit x p))) = true.
Proof.
  intros Hp. destruct (proj1 framed_all x p) as [_ _ _ (a & -> & _ & Ha)].
  apply fresh_adds_app; [now rewrite app_nil_r | exact Hp].
Qed.

(** *** Counting the calls of [add] *)


Lemma same_key_ident (t u : tensor) :
  same_key tensor_eq t u = false -> Nat.eqb (ident u) (ident t) = false.
Proof. unfold same_key. intros H. now apply orb_false_iff in H. Qed.

Lemma not_member_no_adds (t : tensor) (s : list tensor) :
  member t s = false -> adds_of t s = 0.
Proof.
  induction s as [|u s IH]; [reflexivity|]. simpl. intros H.
  apply orb_false_iff in H as [Hu Hs].
  unfold adds_of. simpl. rewrite (same_key_ident _ _ Hu). now apply IH.
Qed.

Lemma adds_of_same_ident (t u : tensor) (s : list tensor) :
  ident t = ident u -> adds_of t s = adds_of u s.
Proof. unfold adds_of. now intros ->. Qed.

Lemma distinct_adds (t : tensor) (s : list tensor) :
  distinct tensor_eq s = true -> adds_of t s <= 1.
Proof.
  unfold distinct. induction s as [|u s IH]; [intros _; cbv; lia|].
  simpl. rewrite app_nil_r. intros H. apply andb_true_iff in H as [Hu Hs].
  apply negb_true_iff in Hu. specialize (IH Hs).
  unfold adds_of in *. simpl.
  destruct (Nat.eqb (ident u) (ident t)) eqn:E; [|exact IH].
  apply Nat.eqb_eq in E. simpl.
  pose proof (not_member_no_adds u s Hu) as H0.
  rewrite (adds_of_same_ident u t s E) in H0. unfold adds_of in H0.
  rewrite H0. lia.
Qed.



(** *** Indentation scopes *)

Lemma set_indentation_same (p : TFlowPrinter) :
  set_indentation (indentation p) p = p.
Proof. now destruct p. Qed.

Lemma map_outcome_twice (a b : string) (o : outcome) :
  map_outcome (set_indentation a) (map_outcome (set_indentation b) o)
  = map_outcome (set_indentation a) o.
Proof. now destruct o. Qed.

Lemma nested_run (indents : list indent_arg)
  (body : TFlowPrinter -> outcome) (p : TFlowPrinter) :
  nested indents body p
  = match indents with
    | [] => body p
    | _ =>
        map_outcome (set_indentation (indentation p))
          (body (set_indentation
                   (indentation p
                    ++ String.concat "" (map increment indents)) p))
    end.
Proof.
  revert p. induction indents as [|i rest IH]; intros p; [reflexivity|].
  change (nested (i :: rest) body p)
    with (indented i (nested rest body) p).
  unfold indented. rewrite IH. destruct rest as [|j rest].
  - reflexivity.
  - rewrite map_outcome_twice.
    cbn [indentation set_indentation buffer formatter printed_subgraphs].
    rewrite append_assoc.
    change (String.concat "" (map increment (i :: j :: rest)))
      with (increment i ++ String.concat "" (map increment (j :: rest)))%string.
    reflexivity.
Qed.

(** *** The claims *)

(** C3: a root that is a [tf.Tensor] whose [op] accessor raises
    [AttributeError] (an eager tensor) makes [tf_dprint] raise the entry
    point's error, a [ValueError] whose message asks for an object built
    with eager mode disabled, in graph mode; the caller's printer and the
    text of standard output are as they were before the call. *)
Theorem eager_root_rejected (t : tensor) (msg : string)
  (printer : option TFlowPrinter) (stdout : list string) :
  concrete t = true ->
  op t = OpRaises (AttributeError msg) ->
  tf_dprint tensor_eq obj_str render_full render_summary
    (PyTensor t) printer stdout
  = (Some (ValueError
       "TensorFlow Operation not available; try recreating the object with eager-mode disabled (e.g. within `tensorflow.python.eager.context.graph_mode`)"),
     printer, stdout).
Proof.
  intros Hc Hop. unfold tf_dprint, check_op. now rewrite Hc, Hop.
Qed.

(** C6: a tensor whose operation is a logic variable prints its header
    line and nothing else: one chunk is written, at the current
    indentation, and the run ends there. *)
Theorem placeholder_op_header_only (t : tensor) (r sh : string)
  (p : TFlowPrinter) :
  op t = OpVar r ->
  shape_str (shape t) = Got sh ->
  visit_tensor t p
  = Normal (MkPrinter (buffer p ++ [line p (PyStr (header r t sh))])
              (formatter p) (indentation p) (printed_subgraphs p)).
Proof.
  intros Hop Hsh. rewrite visit_tensor_eq, Hsh. unfold prefix.
  now rewrite Hop.
Qed.

(** C7: a constant (type [Const], no input) whose payload can be retrieved
    prints its header and then, one scope deeper, the payload formatted by
    [array2string] with threshold 20 and the indentation of that scope as
    prefix; a payload of more than 20 elements is rendered in the summarised
    form, one of at most 20 elements in full. *)
Theorem const_payload_rendering (t : tensor) (o : operation) (a : ndarray)
  (sh : string) (p : TFlowPrinter) :
  op t = OpNode o -> inputs o = Inputs pnil -> type o = "Const" ->
  shape_str (shape t) = Got sh ->
  retrievable t o a ->
  visit_tensor t p
  = Normal (MkPrinter
              (buffer p
               ++ [line p (PyStr (header "Const" t sh));
                   line (inner p)
                     (PyStr (array2string render_full render_summary a 20
                               (indentation p ++ "|  ")))])
              (formatter p) (indentation p) (printed_subgraphs p))
  /\ array2string render_full render_summary a 20 (indentation p ++ "|  ")
     = (if Nat.ltb 20 (size a)
        then render_summary a (indentation p ++ "|  ")
        else render_full a (indentation p ++ "|  ")).
Proof.
  intros Hop Hin Hty Hsh Hval. split.
  - rewrite (visit_tensor_const t o a sh p Hop Hin Hty Hsh Hval).
    now rewrite Hty.
  - unfold array2string.
    destruct (Z.ltb_spec 20 (Z.of_nat (size a)));
      destruct (Nat.ltb_spec 20 (size a)); try reflexivity; lia.
Qed.

(** C10: a constant is printed the same way whatever the set of printed
    subgraphs holds, even the constant itself: header and payload are
    written at every occurrence, the marker ["..."] never replaces them, and
    the set is left as it was.  Every run of the dispatcher keeps the set
    made of tensors whose operation has one or more inputs. *)
Theorem constants_never_deduplicated (t : tensor) (o : operation)
  (a : ndarray) (sh : string) (p : TFlowPrinter) (x : pyobj) :
  op t = OpNode o -> inputs o = Inputs pnil -> type o = "Const" ->
  shape_str (shape t) = Got sh ->
  retrievable t o a ->
  Forall (fun u => has_inputs u = true) (printed_subgraphs p) ->
  let payload q :=
    line (inner q)
      (PyStr (array2string render_full render_summary a 20
                (indentation q ++ "|  "))) in
  let head q := line q (PyStr (header "Const" t sh)) in
  visit_tensor t p
  = Normal (MkPrinter (buffer p ++ [head p; payload p])
              (formatter p) (indentation p) (printed_subgraphs p))
  /\ visit_tensor t (add t p)
     = Normal (MkPrinter (buffer p ++ [head p; payload p])
                 (formatter p) (indentation p) (t :: printed_subgraphs p))
  /\ visit_each (pcons (PyTensor t) (pcons (PyTensor t) pnil)) p
     = Normal (MkPrinter
                 (buffer p ++ [head p; payload p; head p; payload p])
                 (formatter p) (indentation p) (printed_subgraphs p))
  /\ has_inputs t = false
  /\ Forall (fun u => has_inputs u = true)
            (printed_subgraphs (final (visit x p))).
Proof.
  intros Hop Hin Hty Hsh Hval Hinv payload head.
  assert (E : forall q,
    visit_tensor t q
    = Normal (MkPrinter (buffer q ++ [head q; payload q])
                (formatter q) (indentation q) (printed_subgraphs q))).
  { intros q. rewrite (visit_tensor_const t o a sh q Hop Hin Hty Hsh Hval).
    unfold head, payload. now rewrite Hty. }
  repeat split.
  - apply E.
  - apply E.
  - rewrite visit_each_cons. cbn [_tf_dprint]. rewrite E.
    cbn [andthen]. rewrite visit_each_cons. cbn [_tf_dprint]. rewrite E.
    cbn [andthen dprint_each]. unfold head, payload, line, format, inner.
    cbn [buffer formatter indentation printed_subgraphs set_indentation].
    now rewrite <- app_assoc.
  - unfold has_inputs. now rewrite Hop, Hin.
  - now apply visit_keeps_inputs_only.
Qed.

(** C5: a block inside nested [indented] scopes runs with the indentation
    it started from followed by the increments of the enclosing scopes in
    order, outermost first, an [int] counting spaces and a string standing
    for itself; from a new printer that is the concatenation alone.  Leaving
    the scopes puts back the indentation in force before them, whether the
    block ran to its end, returned early or raised, and so does every run
    of the dispatcher. *)
Theorem indentation_scoped (indent : indent_arg) (rest : list indent_arg)
  (body : TFlowPrinter -> outcome) (p : TFlowPrinter) (x : pyobj)
  (fmt : pyobj -> string) (buf : list string) (n : Z) (s : string) :
  let indents := indent :: rest in
  let within := String.concat "" (map increment indents) in
  let block q := body (set_indentation (indentation q ++ within) q) in
  nested indents body p
  = map_outcome (set_indentation (indentation p)) (block p)
  /\ indentation (set_indentation (indentation p ++ within) p)
     = (indentation p ++ within)%string
  /\ indentation
       (set_indentation
          (indentation (TFlowPrinter_init fmt buf) ++ within)
          (TFlowPrinter_init fmt buf))
     = within
  /\ indentation (final (nested indents body p)) = indentation p
  /\ match block p with
     | Normal q =>
         nested indents body p = Normal (set_indentation (indentation p) q)
     | Return q =>
         nested indents body p = Return (set_indentation (indentation p) q)
     | Raise e q =>
         nested indents body p = Raise e (set_indentation (indentation p) q)
     end
  /\ nested [] body p = body p
  /\ indentation (final (visit x p)) = indentation p
  /\ increment (IndentInt n) = String.concat "" (repeat " " (Z.to_nat n))
  /\ increment (IndentStr s) = s.
Proof.
  intros indents within block.
  assert (E : nested indents body p
              = map_outcome (set_indentation (indentation p)) (block p))
    by apply nested_run.
  split; [exact E|]. split; [reflexivity|]. split; [reflexivity|].
  rewrite E. split; [now destruct (block p)|].
  split; [now destruct (block p)|]. split; [reflexivity|].
  split; [apply visit_indentation | split; reflexivity].
Qed.

(** C4, amended: a tensor whose shape accessor returns, or raises
    [ValueError] or [AttributeError], and whose [op] can be read, writes one
    header chunk first, at the current indentation:
    [Tensor(<label>):<slot>,\tdtype=<dtype>,\tshape=<shape>,\t"<name>"], as
    the formatter renders that string (unchanged under [str]).  The label is
    the operation's type, or the logic variable standing for the operation;
    the dtype is its name, or the dtype itself when it has none; the shape
    is the list of dimensions, or [Unknown] when the accessor raised.
    Every later chunk of the run lies one scope deeper. *)
Theorem tensor_header_line (t : tensor) (p : TFlowPrinter) :
  (forall e, shape t = Raises e ->
             exists m, e = ValueError m \/ e = AttributeError m) ->
  (forall e, op t <> OpRaises e) ->
  let label :=
    match op t with
    | OpNode o => type o
    | OpVar r => r
    | OpRaises _ => ""
    end in
  let shape_s :=
    match shape t with
    | Got dims => str_dims dims
    | Raises _ => "Unknown"
    end in
  let dtype_s :=
    match dtype t with
    | DtypeNamed n => n
    | DtypeRaw r => r
    end in
  let head :=
    ("Tensor(" ++ label ++ "):" ++ str_slot (value_index t)
     ++ "," ++ tab ++ "dtype=" ++ dtype_s
     ++ "," ++ tab ++ "shape=" ++ shape_s
     ++ "," ++ tab ++ dquote ++ name t ++ dquote)%string in
  (exists rest,
      buffer (final (visit_tensor t p))
      = buffer p ++ line p (PyStr head) :: rest
      /\ Forall (fun ln => String.prefix (indentation p ++ "|  ") ln = true)
                rest)
  /\ line (TFlowPrinter_init (py_str obj_str) (buffer p)) (PyStr head)
     = (head ++ nl)%string.
Proof.
  intros Hshape Hop label shape_s dtype_s head. split; [|reflexivity].
  assert (Hsh : shape_str (shape t) = Got shape_s).
  { unfold shape_s. destruct (shape t) as [dims|e]; [reflexivity|].
    destruct (Hshape e eq_refl) as (m & [-> | ->]); reflexivity. }
  assert (Hpre : prefix t shape_s = Got head).
  { unfold prefix, head, label, header, dtype_s, dtype_label.
    destruct (op t) as [r|e|o] eqn:Eop; try reflexivity.
    now destruct (Hop e). }
  rewrite visit_tensor_eq, Hsh, Hpre. cbn [andthen dprint_default].
  destruct (tensor_rest_lines t (println (PyStr head) p)) as (rest & B & P).
  exists rest. split; [|exact P].
  rewrite B. unfold println, write. simpl. now rewrite <- app_assoc.
Qed.

Lemma visit_tensor_after_header (obj : tensor) (printer : TFlowPrinter) :
  visit_tensor obj printer
  = match shape_str (shape obj) with
    | Raises e => Raise e printer
    | Got shape_s =>
        match prefix obj shape_s with
        | Raises e => Raise e printer
        | Got pre =>
            after_header tensor_eq render_full render_summary obj
              (println (PyStr pre) printer)
        end
    end.
Proof.
  rewrite visit_tensor_eq.
  destruct (shape_str (shape obj)); [|reflexivity].
  destruct (prefix obj a); reflexivity.
Qed.

(** C8, amended: when the shape accessor raises [ValueError] or
    [AttributeError] and [op] can be read, the header is written with
    [shape=Unknown] and the tensor case goes on with the statements after
    the header; with inputs, that is the marker ["..."] if the tensor is in
    the set, else the tensor is added and its inputs are visited in order,
    one scope deeper.  If [op] raises, that exception leaves the visit with
    nothing written.  An exception of any other class raised by the shape
    accessor leaves the visit with nothing written. *)
Theorem shape_error_handling (t : tensor) (e : exn) (p : TFlowPrinter) :
  shape t = Raises e ->
  let unknown label :=
    ("Tensor(" ++ label ++ "):" ++ str_slot (value_index t)
     ++ "," ++ tab ++ "dtype=" ++ dtype_label (dtype t)
     ++ "," ++ tab ++ "shape=" ++ "Unknown"
     ++ "," ++ tab ++ dquote ++ name t ++ dquote)%string in
  match e with
  | ValueError _ | AttributeError _ =>
      match op t with
      | OpRaises e' => visit_tensor t p = Raise e' p
      | OpVar r =>
          visit_tensor t p
          = after_header tensor_eq render_full render_summary t
              (println (PyStr (unknown r)) p)
      | OpNode o =>
          visit_tensor t p
          = after_header tensor_eq render_full render_summary t
              (println (PyStr (unknown (type o))) p)
          /\ match inputs o with
             | Inputs l =>
                 if Nat.ltb 0 (len l) then
                   visit_tensor t p
                   = if member t (printed_subgraphs p) then
                       Normal (MkPrinter
                                 (buffer p
                                  ++ [line p (PyStr (unknown (type o)));
                                      line (inner p) (PyStr "...")])
                                 (formatter p) (indentation p)
                                 (printed_subgraphs p))
                     else
                       map_outcome (set_indentation (indentation p))
                         (visit_each l
                            (add t (inner (println
                                             (PyStr (unknown (type o)))
                                             p))))
                 else True
             | InputsVar _ => True
             end
      end
  | _ => visit_tensor t p = Raise e p
  end.
Proof.
  intros Hshape unknown.
  assert (Hcaught : shape_str (shape t) = Got "Unknown" ->
    match op t with
    | OpRaises e' => visit_tensor t p = Raise e' p
    | OpVar r =>
        visit_tensor t p
        = after_header tensor_eq render_full render_summary t
            (println (PyStr (unknown r)) p)
    | OpNode o =>
        visit_tensor t p
        = after_header tensor_eq render_full render_summary t
            (println (PyStr (unknown (type o))) p)
        /\ match inputs o with
           | Inputs l =>
               if Nat.ltb 0 (len l) then
                 visit_tensor t p
                 = if member t (printed_subgraphs p) then
                     Normal (MkPrinter
                               (buffer p
                                ++ [line p (PyStr (unknown (type o)));
                                    line (inner p) (PyStr "...")])
                               (formatter p) (indentation p)
                               (printed_subgraphs p))
                   else
                     map_outcome (set_indentation (indentation p))
                       (visit_each l
                          (add t (inner (println
                                           (PyStr (unknown (type o)))
                                           p))))
               else True
           | InputsVar _ => True
           end
    end).
  { intros Hsh.
    assert (Hgo : forall f, op t = f ->
      visit_tensor t p
      = match op_label f with
        | Got label =>
            after_header tensor_eq render_full render_summary t
              (println (PyStr (unknown label)) p)
        | Raises e' => Raise e' p
        end).
    { intros f Hf. rewrite visit_tensor_after_header, Hsh. unfold prefix.
      rewrite Hf. now destruct (op_label f). }
    destruct (op t) as [r|e'|o] eqn:Hop;
      [exact (Hgo _ eq_refl) | exact (Hgo _ eq_refl) |].
    split; [exact (Hgo _ eq_refl)|].
    destruct (inputs o) as [r|l] eqn:Hin; [exact I|].
    destruct (Nat.ltb 0 (len l)) eqn:Hlen; [|exact I].
    exact (visit_tensor_inputs t o l "Unknown" p Hop Hin Hlen Hsh). }
  destruct e as [m|m|m|c m].
  - apply Hcaught. now rewrite Hshape.
  - apply Hcaught. now rewrite Hshape.
  - rewrite visit_tensor_eq, Hshape. reflexivity.
  - rewrite visit_tensor_eq, Hshape. reflexivity.
Qed.


(** C1, amended: the set is keyed by the equality of the tensor classes.
    The object it holds is always found in it.  A second object with the
    same fields as a tensor in the set is found exactly when the classes
    call the two equal, or the set holds another match: found, its visit
    writes the header and ["..."] and it gets no entry of its own; not found,
    it is added next to the first and its inputs are visited.  A tensor with
    inputs is added right before its inputs are visited, on the visit that
    finds it absent; a visit that finds it present adds nothing; and over
    any run no tensor is added twice. *)
Theorem dedup_keyed_by_class_equality (t t' : tensor) (o : operation)
  (l : pylist) (sh : string) (p : TFlowPrinter) (x : pyobj) :
  t' = with_ident (ident t') t -> ident t' <> ident t ->
  op t = OpNode o -> inputs o = Inputs l -> 0 < len l ->
  shape_str (shape t) = Got sh ->
  distinct tensor_eq (printed_subgraphs p) = true ->
  let head := header (type o) t sh in
  member t (t :: printed_subgraphs p) = true
  /\ member t' (t :: printed_subgraphs p)
     = (tensor_eq t t' || member t' (printed_subgraphs p))
  /\ member t (t' :: printed_subgraphs p)
     = (tensor_eq t' t || member t (printed_subgraphs p))
  /\ visit_tensor t' (add t p)
     = (if tensor_eq t t' || member t' (printed_subgraphs p) then
          Normal (MkPrinter
                    (buffer p ++ [line p (PyStr head);
                                  line (inner p) (PyStr "...")])
                    (formatter p) (indentation p)
                    (t :: printed_subgraphs p))
        else
          map_outcome (set_indentation (indentation p))
            (visit_each l
               (add t' (inner (println (PyStr head) (add t p))))))
  /\ visit_tensor t p
     = (if member t (printed_subgraphs p) then
          Normal (MkPrinter
                    (buffer p ++ [line p (PyStr head);
                                  line (inner p) (PyStr "...")])
                    (formatter p) (indentation p) (printed_subgraphs p))
        else
          map_outcome (set_indentation (indentation p))
            (visit_each l (add t (inner (println (PyStr head) p)))))
  /\ distinct tensor_eq (printed_subgraphs (final (visit x p))) = true
  /\ adds_of t (printed_subgraphs (final (visit x p))) <= 1
  /\ adds_of t' (printed_subgraphs (final (visit x p))) <= 1.
Proof.
  intros Ht' Hne Hop Hin Hlen Hsh Hd head.
  apply Nat.ltb_lt in Hlen.
  assert (Hk : same_key tensor_eq t' t = tensor_eq t t').
  { unfold same_key.
    replace (Nat.eqb (ident t) (ident t')) with false; [reflexivity|].
    symmetry. apply Nat.eqb_neq. congruence. }
  assert (Hk' : same_key tensor_eq t t' = tensor_eq t' t).
  { unfold same_key.
    replace (Nat.eqb (ident t') (ident t)) with false; [reflexivity|].
    symmetry. now apply Nat.eqb_neq. }
  assert (Hop' : op t' = OpNode o) by (rewrite Ht'; now destruct t).
  assert (Hsh' : shape_str (shape t') = Got sh)
    by (rewrite Ht'; now destruct t).
  assert (Hhead : header (type o) t' sh = head)
    by (rewrite Ht'; now destruct t).
  split; [apply member_head|].
  split; [simpl; now rewrite Hk|]. split; [simpl; now rewrite Hk'|].
  split; [|split].
  - rewrite (visit_tensor_inputs t' o l sh (add t p) Hop' Hin Hlen Hsh').
    rewrite Hhead.
    change (printed_subgraphs (add t p)) with (t :: printed_subgraphs p).
    cbn [contains existsb]. rewrite Hk. reflexivity.
  - apply visit_tensor_inputs; assumption.
  - pose proof (visit_distinct x p Hd) as Hd'.
    split; [exact Hd'|]. split; now apply distinct_adds.
Qed.




(** ** Further properties of the printer *)

(** *** A rule for relations kept by every step *)

Section Invariant.

Variable R : TFlowPrinter -> TFlowPrinter -> Prop.
Hypothesis R_refl : forall p, R p p.
Hypothesis R_trans : forall p q r, R p q -> R q r -> R p r.
Hypothesis R_println : forall obj p, R p (println obj p).
Hypothesis R_add : forall t p, R p (add t p).
Hypothesis R_indent : forall i p, R p (set_indentation i p).

Lemma kept_andthen (p : TFlowPrinter) (o : outcome)
  (k : TFlowPrinter -> outcome) :
  R p (final o) -> (forall q, R q (final (k q))) ->
  R p (final (andthen o k)).
Proof.
  intros Ho Hk. destruct o as [q|q|e q]; simpl; try exact Ho.
  eapply R_trans; [exact Ho | apply Hk].
Qed.

Lemma kept_indented (indent : indent_arg) (body : TFlowPrinter -> outcome)
  (p : TFlowPrinter) :
  (forall q, R q (final (body q))) -> R p (final (indented indent body p)).
Proof.
  intros Hb. unfold indented.
  eapply R_trans; [apply (R_indent (indentation p ++ increment indent))|].
  eapply R_trans; [apply Hb|].
  destruct (body _); apply R_indent.
Qed.

Lemma kept_call (p : TFlowPrinter) (o : outcome) :
  R p (final o) -> R p (final (call o)).
Proof. now destruct o. Qed.

Lemma kept_const_body (obj : tensor) (o : operation) (p : TFlowPrinter) :
  R p (final (const_body render_full render_summary obj o p)).
Proof.
  unfold const_body. destruct (concrete obj).
  - destruct (eval obj); [apply R_println | apply R_refl].
  - destruct (node_def o) as [r|[a|e]];
      [apply R_println | apply R_println | apply R_refl].
Qed.

Lemma kept_all :
  (forall x p, R p (final (visit x p)))
  /\ (forall t p, R p (final (visit_tensor t p)))
  /\ (forall f, match f with
                | OpNode o => forall p, R p (final (visit_op o p))
                | _ => True
                end)
  /\ (forall o p, R p (final (visit_op o p)))
  /\ (forall i, match i with
                | Inputs l => forall p, R p (final (visit_each l p))
                | InputsVar _ => True
                end)
  /\ (forall l p, R p (final (visit_each l p))).
Proof.
  apply (graph_mutind
    (fun x => forall p, R p (final (visit x p)))
    (fun t => forall p, R p (final (visit_tensor t p)))
    (fun f => match f with
              | OpNode o => forall p, R p (final (visit_op o p))
              | _ => True
              end)
    (fun o => forall p, R p (final (visit_op o p)))
    (fun i => match i with
              | Inputs l => forall p, R p (final (visit_each l p))
              | InputsVar _ => True
              end)
    (fun l => forall p, R p (final (visit_each l p)))).
  - intros s p. apply R_println.
  - intros r p. apply R_println.
  - intros l _ p. apply R_println.
  - intros t IH p. apply IH.
  - intros o IH p. apply IH.
  - intros i c f IHf v d sh n ev p.
    set (obj := MkTensor i c f v d sh n ev).
    rewrite visit_tensor_eq.
    destruct (shape_str (shape obj)) as [shape_s|e]; [|apply R_refl].
    destruct (prefix obj shape_s) as [pre|e]; [|apply R_refl].
    apply kept_andthen; [apply R_println|]. intros q.
    change (op obj) with f.
    destruct f as [r|e|o]; [apply R_refl | apply R_refl |].
    destruct (inputs o) as [r|l].
    + apply kept_indented. intros q'. apply R_println.
    + destruct (Nat.ltb 0 (len l)).
      * apply kept_indented. intros q'.
        destruct (negb _); [|apply R_println].
        eapply R_trans; [apply (R_add obj) | apply IHf].
      * destruct (String.eqb (type o) "Const"); [|apply R_refl].
        apply kept_call, kept_indented. intros q'. apply kept_const_body.
  - intros r. exact I.
  - intros e. exact I.
  - intros o IH. exact IH.
  - intros ty i IHi nd p. rewrite visit_op_eq. simpl.
    destruct i as [r|l]; [apply R_refl | apply IHi].
  - intros r. exact I.
  - intros l IH. exact IH.
  - intros p. apply R_refl.
  - intros x IHx r IHr p. rewrite visit_each_cons.
    apply kept_andthen; [apply IHx | apply IHr].
Qed.

End Invariant.

(** *** Whole lines *)

Lemma line_ends_with_nl (p : TFlowPrinter) (obj : pyobj) :
  ends_with_nl (line p obj).
Proof. now exists (format p obj). Qed.

Lemma visit_whole_lines (x : pyobj) (p : TFlowPrinter) :
  exists lines,
    buffer (final (visit x p)) = buffer p ++ lines
    /\ Forall ends_with_nl lines.
Proof.
  refine (proj1 (kept_all
    (fun p q => exists lines,
       buffer q = buffer p ++ lines /\ Forall ends_with_nl lines)
    _ _ _ _ _) x p).
  - intros q. exists []. split; [now rewrite app_nil_r | constructor].
  - intros a b c (l1 & E1 & F1) (l2 & E2 & F2). exists (l1 ++ l2). split.
    + now rewrite E2, E1, app_assoc.
    + apply Forall_app. now split.
  - intros obj q. exists [line q obj]. split; [reflexivity|].
    constructor; [apply line_ends_with_nl | constructor].
  - intros t q. exists []. split; [simpl; now rewrite app_nil_r|constructor].
  - intros i q. exists []. split; [simpl; now rewrite app_nil_r|constructor].
Qed.

(** X1: every visit appends whole lines to the sink and changes nothing written
    before: each new chunk begins with the indentation in force when the
    visit started and ends with a newline.  The formatter is kept, and the
    set only grows, by tensors of the visited graph whose operation has
    inputs. *)
Theorem visit_appends_lines (x : pyobj) (p : TFlowPrinter) :
  exists (lines : list string) (added : list tensor),
    buffer (final (visit x p)) = buffer p ++ lines
    /\ Forall (fun ln => String.prefix (indentation p) ln = true
                         /\ ends_with_nl ln) lines
    /\ formatter (final (visit x p)) = formatter p
    /\ printed_subgraphs (final (visit x p))
       = added ++ printed_subgraphs p
    /\ Forall (fun u => In u (tensors_of x) /\ has_inputs u = true) added.
Proof.
  destruct (proj1 framed_all x p)
    as [_ Ff (lines & Eb & Fp) (added & Ep & Fa & _)].
  destruct (visit_whole_lines x p) as (lines' & Eb' & Fn).
  assert (lines' = lines) as ->.
  { rewrite Eb in Eb'. now apply app_inv_head in Eb'. }
  exists lines, added. repeat split; try assumption.
  apply Forall_forall. intros ln Hln. split.
  - now apply (proj1 (Forall_forall _ _) Fp).
  - now apply (proj1 (Forall_forall _ _) Fn).
Qed.

(** *** Text already in the sink *)

Lemma push_println (b : list string) (obj : pyobj) (p : TFlowPrinter) :
  println obj (push b p) = push b (println obj p).
Proof.
  unfold println, write, push. simpl. now rewrite app_assoc.
Qed.

Lemma push_map (b : list string) (i : string) (o : outcome) :
  map_outcome (set_indentation i) (map_outcome (push b) o)
  = map_outcome (push b) (map_outcome (set_indentation i) o).
Proof. now destruct o. Qed.

Lemma push_indented (b : list string) (indent : indent_arg)
  (body : TFlowPrinter -> outcome) (p : TFlowPrinter) :
  (forall q, body (push b q) = map_outcome (push b) (body q)) ->
  indented indent body (push b p)
  = map_outcome (push b) (indented indent body p).
Proof.
  intros Hb. unfold indented.
  change (set_indentation (indentation (push b p) ++ increment indent)
            (push b p))
    with (push b (set_indentation (indentation p ++ increment indent) p)).
  rewrite Hb. apply push_map.
Qed.

Lemma push_andthen (b : list string) (o : outcome)
  (k : TFlowPrinter -> outcome) :
  (forall q, k (push b q) = map_outcome (push b) (k q)) ->
  andthen (map_outcome (push b) o) k = map_outcome (push b) (andthen o k).
Proof. intros Hk. destruct o; simpl; [apply Hk | reflexivity..]. Qed.

Lemma push_const_body (b : list string) (obj : tensor) (o : operation)
  (p : TFlowPrinter) :
  const_body render_full render_summary obj o (push b p)
  = map_outcome (push b) (const_body render_full render_summary obj o p).
Proof.
  unfold const_body, dprint_default. destruct (concrete obj).
  - destruct (eval obj); [|reflexivity]. rewrite push_println. reflexivity.
  - destruct (node_def o) as [r|[a|e]]; simpl; rewrite ?push_println;
      reflexivity.
Qed.

Lemma push_all (b : list string) :
  (forall x p, visit x (push b p) = map_outcome (push b) (visit x p))
  /\ (forall t p,
        visit_tensor t (push b p) = map_outcome (push b) (visit_tensor t p))
  /\ (forall f, match f with
                | OpNode o =>
                    forall p, visit_op o (push b p)
                              = map_outcome (push b) (visit_op o p)
                | _ => True
                end)
  /\ (forall o p,
        visit_op o (push b p) = map_outcome (push b) (visit_op o p))
  /\ (forall i, match i with
                | Inputs l =>
                    forall p, visit_each l (push b p)
                              = map_outcome (push b) (visit_each l p)
                | InputsVar _ => True
                end)
  /\ (forall l p,
        visit_each l (push b p) = map_outcome (push b) (visit_each l p)).
Proof.
  apply (graph_mutind
    (fun x => forall p,
       visit x (push b p) = map_outcome (push b) (visit x p))
    (fun t => forall p,
       visit_tensor t (push b p) = map_outcome (push b) (visit_tensor t p))
    (fun f => match f with
              | OpNode o =>
                  forall p, visit_op o (push b p)
                            = map_outcome (push b) (visit_op o p)
              | _ => True
              end)
    (fun o => forall p,
       visit_op o (push b p) = map_outcome (push b) (visit_op o p))
    (fun i => match i with
              | Inputs l =>
                  forall p, visit_each l (push b p)
                            = map_outcome (push b) (visit_each l p)
              | InputsVar _ => True
              end)
    (fun l => forall p,
       visit_each l (push b p) = map_outcome (push b) (visit_each l p))).
  - intros s p. simpl. unfold dprint_default. now rewrite push_println.
  - intros r p. simpl. unfold dprint_default. now rewrite push_println.
  - intros l _ p. simpl. unfold dprint_default. now rewrite push_println.
  - intros t IH p. apply IH.
  - intros o IH p. apply IH.
  - intros i c f IHf v d sh n ev p.
    set (obj := MkTensor i c f v d sh n ev).
    rewrite !visit_tensor_eq.
    destruct (shape_str (shape obj)) as [shape_s|e]; [|reflexivity].
    destruct (prefix obj shape_s) as [pre|e]; [|reflexivity].
    unfold dprint_default at 1 2. rewrite push_println.
    change (Normal (push b (println (PyStr pre) p)))
      with (map_outcome (push b) (Normal (println (PyStr pre) p))).
    apply push_andthen. intros q.
    change (op obj) with f.
    destruct f as [r|e|o]; [reflexivity | reflexivity |].
    destruct (inputs o) as [r|l].
    + apply push_indented. intros q'. unfold dprint_default.
      now rewrite push_println.
    + destruct (Nat.ltb 0 (len l)).
      * apply push_indented. intros q'.
        change (printed_subgraphs (push b q')) with (printed_subgraphs q').
        destruct (negb _).
        -- apply (IHf (add obj q')).
        -- unfold dprint_default. now rewrite push_println.
      * destruct (String.eqb (type o) "Const"); [|reflexivity].
        rewrite (push_indented b scope_str _ q (push_const_body b obj o)).
        now destruct (indented _ _ _).
  - intros r. exact I.
  - intros e. exact I.
  - intros o IH. exact IH.
  - intros ty i IHi nd p. rewrite !visit_op_eq. simpl.
    destruct i as [r|l]; [reflexivity | apply IHi].
  - intros r. exact I.
  - intros l IH. exact IH.
  - intros p. reflexivity.
  - intros x IHx r IHr p. rewrite !visit_each_cons, IHx.
    apply push_andthen, IHr.
Qed.

(** X2: with the default printer the trace is appended to what standard output
    already holds, and is the same whatever that is: the call returns the
    exception and writes the chunks it would with nothing written before. *)
Theorem default_printer_appends (x : pyobj) (stdout : list string) :
  tf_dprint tensor_eq obj_str render_full render_summary x None stdout
  = (fst (fst (tf_dprint tensor_eq obj_str render_full render_summary
                 x None [])),
     None,
     stdout
     ++ snd (tf_dprint tensor_eq obj_str render_full render_summary
               x None [])).
Proof.
  unfold tf_dprint. destruct (check_op x) as [e|].
  - simpl. now rewrite app_nil_r.
  - assert (E : TFlowPrinter_init (py_str obj_str) stdout
                = push stdout (TFlowPrinter_init (py_str obj_str) [])).
    { unfold push, TFlowPrinter_init. simpl. now rewrite app_nil_r. }
    rewrite E, (proj1 (push_all stdout)).
    now destruct (visit x (TFlowPrinter_init (py_str obj_str) [])).
Qed.

(** *** A printer used again *)

Lemma visited_is_member (t : tensor) (o : operation) (l : pylist)
  (sh : string) (p : TFlowPrinter) :
  op t = OpNode o -> inputs o = Inputs l -> Nat.ltb 0 (len l) = true ->
  shape_str (shape t) = Got sh ->
  member t (printed_subgraphs (final (visit_tensor t p))) = true.
Proof.
  intros Hop Hin Hlen Hsh.
  rewrite (visit_tensor_inputs t o l sh p Hop Hin Hlen Hsh).
  destruct (member t (printed_subgraphs p)) eqn:Em; [exact Em|].
  rewrite final_map_printed.
  destruct (proj2 (proj2 (proj2 (proj2 (proj2 framed_all)))) l
              (add t (inner (println (PyStr (header (type o) t sh)) p))))
    as [_ _ _ (added & -> & _ & _)].
  rewrite member_app, printed_add, member_head. apply orb_true_r.
Qed.

(** X3: a printer handed to [tf_dprint] keeps its set from call to call: after
    a first call on a tensor with inputs, whether it ended normally or
    raised, a second call with the printer as the first one left it writes
    the header and the marker ["..."], visits no input and raises nothing. *)
Theorem reused_printer_prints_marker (t : tensor) (o : operation)
  (l : pylist) (sh : string) (p : TFlowPrinter) (stdout : list string) :
  op t = OpNode o -> inputs o = Inputs l -> 0 < len l ->
  shape_str (shape t) = Got sh ->
  let first :=
    tf_dprint tensor_eq obj_str render_full render_summary
      (PyTensor t) (Some p) stdout in
  exists p1,
    first = (raised (visit_tensor t p), Some p1, stdout)
    /\ tf_dprint tensor_eq obj_str render_full render_summary
         (PyTensor t) (Some p1) stdout
       = (None,
          Some (MkPrinter
                  (buffer p1 ++ [line p (PyStr (header (type o) t sh));
                                 line (inner p) (PyStr "...")])
                  (formatter p) (indentation p) (printed_subgraphs p1)),
          stdout).
Proof.
  intros Hop Hin Hlen Hsh first. apply Nat.ltb_lt in Hlen.
  assert (Hc : check_op (PyTensor t) = None).
  { unfold check_op. rewrite Hop. now destruct (concrete t). }
  exists (final (visit_tensor t p)). unfold first, tf_dprint. rewrite Hc.
  split; [reflexivity|]. rewrite visit_PyTensor.
  rewrite (visit_tensor_repeat t o l sh _ Hop Hin Hlen Hsh
             (visited_is_member t o l sh p Hop Hin Hlen Hsh)).
  destruct (proj1 (proj2 framed_all) t p) as [Fi Ff _ _].
  cbn [raised final]. unfold line, format, inner.
  cbn [indentation formatter set_indentation]. now rewrite Fi, Ff.
Qed.

(** *** Errors met below the root *)

(** X4: the entry point tries [op] on the root only.  When the first input of a
    tensor is one whose [op] accessor raises, the exception leaves the
    dispatcher as it is, after the header of the tensor has been written and
    the tensor added to the set; the indentation is back to what it was. *)
Theorem nested_op_error_propagates (t e : tensor) (o : operation)
  (rest : pylist) (sh she : string) (err : exn) (p : TFlowPrinter)
  (stdout : list string) :
  op t = OpNode o -> inputs o = Inputs (pcons (PyTensor e) rest) ->
  shape_str (shape t) = Got sh ->
  member t (printed_subgraphs p) = false ->
  shape_str (shape e) = Got she -> op e = OpRaises err ->
  let left :=
    MkPrinter (buffer p ++ [line p (PyStr (header (type o) t sh))])
      (formatter p) (indentation p) (t :: printed_subgraphs p) in
  visit_tensor t p = Raise err left
  /\ tf_dprint tensor_eq obj_str render_full render_summary
       (PyTensor t) (Some p) stdout
     = (Some err, Some left, stdout).
Proof.
  intros Hop Hin Hsh Hmem Hshe Hope left.
  assert (E : visit_tensor t p = Raise err left).
  { rewrite (visit_tensor_first t o _ sh p Hop Hin eq_refl Hsh Hmem).
    rewrite visit_each_cons, visit_PyTensor, (visit_tensor_eq e), Hshe.
    unfold prefix. rewrite Hope. reflexivity. }
  split; [exact E|].
  unfold tf_dprint, check_op. rewrite Hop.
  destruct (concrete t); rewrite visit_PyTensor, E; reflexivity.
Qed.

(** X5: when the payload of a constant cannot be retrieved, the exception of
    the evaluation, or of the attribute lookup, leaves the dispatcher after
    the header has been written; the indentation is back to what it was and
    the set is untouched. *)
Theorem const_payload_error_propagates (t : tensor) (o : operation)
  (sh : string) (err : exn) (p : TFlowPrinter) :
  op t = OpNode o -> inputs o = Inputs pnil -> type o = "Const" ->
  shape_str (shape t) = Got sh ->
  (if concrete t then eval t = Raises err
   else node_def o = NodeDef (Raises err)) ->
  visit_tensor t p
  = Raise err
      (MkPrinter (buffer p ++ [line p (PyStr (header "Const" t sh))])
         (formatter p) (indentation p) (printed_subgraphs p)).
Proof.
  intros Hop Hin Hty Hsh Herr.
  rewrite visit_tensor_eq, Hsh. unfold prefix. rewrite Hop. simpl.
  rewrite Hin, Hty. simpl. unfold indented, const_body.
  destruct (concrete t); rewrite Herr; reflexivity.
Qed.

(** X6: when reading [op] on a root [tf.Tensor] raises an exception that is not
    an [AttributeError], [tf_dprint] lets it through unchanged, with nothing
    written. *)
Theorem root_op_error_passes (t : tensor) (err : exn)
  (printer : option TFlowPrinter) (stdout : list string) :
  concrete t = true -> op t = OpRaises err ->
  (forall msg, err <> AttributeError msg) ->
  tf_dprint tensor_eq obj_str render_full render_summary
    (PyTensor t) printer stdout
  = (Some err, printer, stdout).
Proof.
  intros Hc Hop Hne. unfold tf_dprint, check_op. rewrite Hc, Hop.
  destruct err; try reflexivity. now destruct (Hne msg).
Qed.

(** *** Placeholders below the operation *)

(** X7: a tensor whose operation has a logic variable for its inputs writes its
    header and, one scope below, that variable; nothing is visited and the
    set is untouched. *)
Theorem placeholder_inputs_printed (t : tensor) (o : operation)
  (r sh : string) (p : TFlowPrinter) :
  op t = OpNode o -> inputs o = InputsVar r ->
  shape_str (shape t) = Got sh ->
  visit_tensor t p
  = Normal (MkPrinter
              (buffer p ++ [line p (PyStr (header (type o) t sh));
                            line (inner p) (PyStr r)])
              (formatter p) (indentation p) (printed_subgraphs p)).
Proof.
  intros Hop Hin Hsh.
  rewrite visit_tensor_eq, Hsh. unfold prefix. rewrite Hop. simpl.
  rewrite Hin. unfold indented, dprint_default. simpl.
  unfold println, write. simpl. now rewrite <- app_assoc.
Qed.

(** X8: a meta constant whose node definition is a logic variable writes its
    header and, one scope below, that variable; the [return] inside the
    scope ends the visit normally with the indentation put back, and the
    array formatter is not run. *)
Theorem placeholder_node_def_printed (t : tensor) (o : operation)
  (r sh : string) (p : TFlowPrinter) :
  concrete t = false ->
  op t = OpNode o -> inputs o = Inputs pnil -> type o = "Const" ->
  node_def o = NodeDefVar r ->
  shape_str (shape t) = Got sh ->
  visit_tensor t p
  = Normal (MkPrinter
              (buffer p ++ [line p (PyStr (header "Const" t sh));
                            line (inner p) (PyStr r)])
              (formatter p) (indentation p) (printed_subgraphs p)).
Proof.
  intros Hc Hop Hin Hty Hnd Hsh.
  rewrite visit_tensor_eq, Hsh. unfold prefix. rewrite Hop. simpl.
  rewrite Hin, Hty. simpl. unfold indented, const_body.
  rewrite Hc, Hnd. unfold dprint_default. simpl.
  unfold println, write. simpl. now rewrite <- app_assoc.
Qed.

(** *** Chains *)

Lemma chain_nonempty (s : list tensor) (t : tensor) (ts : list tensor)
  (hs : list string) :
  chain tensor_eq s t ts hs -> ts <> [] /\ length hs = length ts.
Proof.
  induction 1 as [s t h _ _ | s t u o h ts hs _ _ _ _ _ [_ IH]].
  - split; [discriminate | reflexivity].
  - split; [discriminate | simpl; now rewrite IH].
Qed.

Lemma header_only_visit (t : tensor) (h : string) (p : TFlowPrinter) :
  the_header t = Got h -> header_only t = true ->
  visit_tensor t p
  = Normal (MkPrinter (buffer p ++ [line p (PyStr h)])
              (formatter p) (indentation p) (printed_subgraphs p)).
Proof.
  unfold the_header, header_only. intros Hh Ho. rewrite visit_tensor_eq.
  destruct (shape_str (shape t)) as [sh|e]; [|discriminate].
  rewrite Hh. destruct (op t) as [r|e|o]; [reflexivity | discriminate |].
  simpl. destruct (inputs o) as [r|[|x l]]; try discriminate. simpl.
  destruct (String.eqb (type o) "Const"); [discriminate | reflexivity].
Qed.

(** X9: a chain of operations with one input each, ending in a tensor that
    prints its header only, writes one header per tensor, in order from the
    root, each one scope below the one before; every tensor but the last is
    added to the set, and nothing else is written. *)
Theorem chain_prints_headers (t : tensor) (ts : list tensor)
  (hs : list string) (p : TFlowPrinter) :
  chain tensor_eq (printed_subgraphs p) t ts hs ->
  visit_tensor t p
  = Normal (MkPrinter
              (buffer p ++ chain_lines (formatter p) (indentation p) hs)
              (formatter p) (indentation p)
              (rev (removelast ts) ++ printed_subgraphs p))
  /\ length hs = length ts.
Proof.
  intros H. split; [|exact (proj2 (chain_nonempty _ _ _ _ H))].
  remember (printed_subgraphs p) as s eqn:Es. revert p Es.
  induction H as [s t h Hh Ho | s t u o h ts hs Hh Hop Hin Hmem Hc IH];
    intros p Es.
  - rewrite (header_only_visit t h p Hh Ho). subst s.
    simpl. now rewrite line_fields.
  - assert (Hsh : exists sh,
              shape_str (shape t) = Got sh /\ h = header (type o) t sh).
    { unfold the_header, prefix in Hh.
      destruct (shape_str (shape t)) as [sh|e]; [|discriminate].
      exists sh. split; [reflexivity|]. rewrite Hop in Hh. simpl in Hh.
      congruence. }
    destruct Hsh as (sh & Hsh & ->). subst s.
    rewrite (visit_tensor_first t o _ sh p Hop Hin eq_refl Hsh Hmem).
    rewrite visit_each_cons, visit_PyTensor.
    rewrite IH by reflexivity. cbn [andthen map_outcome].
    rewrite visit_each_nil. cbn [map_outcome].
    f_equal. apply printer_ext;
      cbn [buffer formatter indentation printed_subgraphs];
      read_fields; try reflexivity.
    + cbn [chain_lines]. rewrite line_fields.
      now rewrite <- app_assoc.
    + destruct (chain_nonempty _ _ _ _ Hc) as [Hne _].
      destruct ts as [|u' ts']; [congruence|].
      change (removelast (t :: u' :: ts'))
        with (t :: removelast (u' :: ts')).
      cbn [printed_subgraphs rev]. now rewrite <- app_assoc.
Qed.

(** *** Inputs in order *)

Lemma visit_each_papp (l1 l2 : pylist) (p : TFlowPrinter) :
  visit_each (papp l1 l2) p = andthen (visit_each l1 p) (visit_each l2).
Proof.
  revert p. induction l1 as [|x r IH]; intros p.
  - reflexivity.
  - change (papp (pcons x r) l2) with (pcons x (papp r l2)).
    rewrite !visit_each_cons.
    destruct (visit x p) as [q|q|e q]; simpl; [apply IH | reflexivity..].
Qed.

(** X11: an operation writes nothing of its own and visits its inputs from left
    to right: with the inputs split in two, the second part is visited from
    the printer the first part left, and not at all when the first part
    raised. *)
Theorem inputs_visited_in_order (ty : string) (nd : node_def_field)
  (l1 l2 : pylist) (p : TFlowPrinter) :
  visit (PyOp (MkOp ty (Inputs (papp l1 l2)) nd)) p
  = andthen (visit (PyOp (MkOp ty (Inputs l1) nd)) p)
      (visit_each l2)
  /\ visit (PyOp (MkOp ty (Inputs pnil) nd)) p = Normal p
  /\ match visit_each l1 p with
     | Raise e q => visit_each (papp l1 l2) p = Raise e q
     | _ => True
     end.
Proof.
  split; [|split].
  - apply visit_each_papp.
  - reflexivity.
  - rewrite visit_each_papp. now destruct (visit_each l1 p).
Qed.

(** *** Counted indentation *)

Lemma spaces_length (k : nat) :
  String.length (String.concat "" (repeat " " k)) = k.
Proof.
  induction k as [|k IH]; [reflexivity|].
  destruct k as [|k]; [reflexivity|].
  change (String.length (String.concat "" (repeat " " (S (S k)))))
    with (S (String.length (String.concat "" (repeat " " (S k))))).
  now rewrite IH.
Qed.

(** X12: an [int] passed to [indented] adds that many characters to the
    indentation, and none when it is zero or negative: the block then runs
    at the indentation it was entered with. *)
Theorem int_indent_counts (n : Z) (k : nat)
  (body : TFlowPrinter -> outcome) (p : TFlowPrinter) :
  String.length (increment (IndentInt n)) = Z.to_nat n
  /\ indented (IndentInt (- Z.of_nat k)) body p
     = map_outcome (set_indentation (indentation p)) (body p).
Proof.
  split; [apply spaces_length|].
  unfold indented, increment, spaces.
  replace (Z.to_nat (- Z.of_nat k)) with 0 by lia. simpl.
  now rewrite append_nil_r, set_indentation_same.
Qed.

End Properties.

(** ** The sample graph at work *)

Lemma eager_root_rejected_witness :
  tf_dprint ex_eq ex_str ex_full ex_summary (PyTensor ex_eager) None []
  = (Some (ValueError not_available), None, []).
Proof.
  apply (eager_root_rejected ex_eq ex_str ex_full ex_summary ex_eager
           "Tensor.op is meaningless when eager execution is enabled."
           None []); reflexivity.
Defined.

Lemma placeholder_op_header_only_witness :
  dprint_tensor ex_eq ex_full ex_summary ex_var ex_printer
  = Normal (MkPrinter [line ex_printer (PyStr (header "~_1" ex_var "Unknown"))]
              (py_str ex_str) "" []).
Proof.
  apply (placeholder_op_header_only ex_eq ex_full ex_summary ex_var
           "~_1" "Unknown" ex_printer); reflexivity.
Defined.

Lemma const_payload_rendering_witness :
  dprint_tensor ex_eq ex_full ex_summary ex_big ex_printer
  = Normal (MkPrinter
              [line ex_printer (PyStr (header "Const" ex_big "[21]"));
               ("|  " ++ "[0 1 2 ... 18 19 20]" ++ nl)%string]
              (py_str ex_str) "" []).
Proof.
  apply (const_payload_rendering ex_eq ex_full ex_summary ex_big
           (MkOp "Const" (Inputs pnil) (NodeDef ex_no_value))
           (MkArray [21] (map Z.of_nat (seq 0 21))) "[21]" ex_printer);
    reflexivity.
Defined.

Lemma constants_never_deduplicated_witness :
  dprint_tensor ex_eq ex_full ex_summary ex_c (add ex_c ex_printer)
  = Normal (MkPrinter
              [line ex_printer (PyStr (header "Const" ex_c "[3]"));
               ("|  " ++ "[1 2 3]" ++ nl)%string]
              (py_str ex_str) "" [ex_c]).
Proof.
  apply (constants_never_deduplicated ex_eq ex_full ex_summary ex_c
           (MkOp "Const" (Inputs pnil) (NodeDef ex_no_value))
           (MkArray [3] [1; 2; 3]%Z) "[3]" ex_printer (PyTensor ex_r));
    try reflexivity.
  constructor.
Defined.

Lemma tensor_header_line_witness :
  exists rest,
    buffer (final (dprint_tensor ex_eq ex_full ex_summary ex_unknown
                     ex_printer))
    = ("Tensor(Neg):0," ++ tab ++ "dtype=float32," ++ tab
       ++ "shape=Unknown," ++ tab ++ dquote ++ "u:0" ++ dquote ++ nl)%string
      :: rest
    /\ Forall (fun ln => String.prefix "|  " ln = true) rest.
Proof.
  apply (tensor_header_line ex_eq ex_str ex_full ex_summary ex_unknown
           ex_printer).
  - intros e H. inversion H. eauto.
  - intros e H. discriminate H.
Defined.

Lemma shape_error_handling_witness :
  dprint_tensor ex_eq ex_full ex_summary ex_unknown ex_printer
  = map_outcome (set_indentation "")
      (dprint_each ex_eq ex_full ex_summary (of_list [PyTensor ex_x])
         (add ex_unknown
            (inner (println (PyStr (header "Neg" ex_unknown "Unknown"))
                      ex_printer)))).
Proof.
  exact (proj2 (shape_error_handling ex_eq ex_full ex_summary ex_unknown
                  (ValueError
                     "as_list() is not defined on an unknown TensorShape.")
                  ex_printer eq_refl)).
Defined.

Lemma dedup_keyed_by_class_equality_witness :
  contains ex_eq ex_s' [ex_s] = false
  /\ contains ex_eq ex_s [ex_s'] = false
  /\ adds_of ex_s
       (printed_subgraphs
          (final (_tf_dprint ex_eq ex_full ex_summary (PyTensor ex_r)
                    ex_printer))) <= 1.
Proof.
  destruct (dedup_keyed_by_class_equality ex_eq ex_full ex_summary
              ex_s ex_s'
              (MkOp "Add" (Inputs (of_list [PyTensor ex_x; PyTensor ex_c]))
                 (NodeDef ex_no_value))
              (of_list [PyTensor ex_x; PyTensor ex_c]) "[2, None]"
              ex_printer (PyTensor ex_r))
    as (_ & H1 & H2 & _ & _ & _ & H3 & _);
    try reflexivity.
  - discriminate.
  - cbv. repeat constructor.
  - split; [exact H1|]. split; [exact H2 | exact H3].
Defined.


(** C1: with classes that compare by value, here by name, the second
    object [ex_s'] is found in the set that holds [ex_s]: its visit is cut
    short by ["..."] and it gets no entry of its own. *)
Lemma value_equality_suppresses_copy :
  contains ex_name_eq ex_s' [ex_s] = true
  /\ dprint_tensor ex_name_eq ex_full ex_summary ex_s' (add ex_s ex_printer)
     = Normal (MkPrinter
                 [line ex_printer (PyStr (header "Add" ex_s' "[2, None]"));
                  line (inner ex_printer) (PyStr "...")]
                 (py_str ex_str) "" [ex_s]).
Proof.
  split; reflexivity.
Qed.

(** *** Where the code departs from the specification's wording *)


(** C4: the header of [ex_x] begins with [Tensor(], not with [Value(]. *)
Lemma header_not_value_form :
  buffer (final (dprint_tensor ex_eq ex_full ex_summary ex_x ex_printer))
  = [("Tensor(Placeholder):0," ++ tab ++ "dtype=float32," ++ tab
      ++ "shape=[2, None]," ++ tab ++ dquote ++ "x:0" ++ dquote ++ nl)%string]
  /\ buffer (final (dprint_tensor ex_eq ex_full ex_summary ex_x ex_printer))
     <> [(spec_header "Placeholder" ex_x "[2, None]" ++ nl)%string].
Proof.
  split; [reflexivity | discriminate].
Defined.

(** C8: a shape accessor that raises [TypeError] aborts the visit: the
    error propagates and no header is written. *)
Lemma uncaught_shape_error_aborts :
  dprint_tensor ex_eq ex_full ex_summary ex_bad_shape ex_printer
  = Raise (TypeError "as_list") ex_printer
  /\ buffer (final (dprint_tensor ex_eq ex_full ex_summary ex_bad_shape
                      ex_printer)) = [].
Proof.
  split; reflexivity.
Defined.


(** *** Further runs over the sample graph *)

Lemma reused_printer_prints_marker_witness :
  exists p1,
    tf_dprint ex_eq ex_str ex_full ex_summary (PyTensor ex_r)
      (Some ex_printer) []
    = (None, Some p1, [])
    /\ snd (fst (tf_dprint ex_eq ex_str ex_full ex_summary (PyTensor ex_r)
                   (Some p1) []))
       = Some (MkPrinter
                 (buffer p1
                  ++ [line ex_printer (PyStr (header "Mul" ex_r "[2, None]"));
                      line (inner ex_printer) (PyStr "...")])
                 (py_str ex_str) "" (printed_subgraphs p1)).
Proof.
  destruct (reused_printer_prints_marker ex_eq ex_str ex_full ex_summary
              ex_r
              (MkOp "Mul" (Inputs (of_list [PyTensor ex_a; PyTensor ex_b]))
                 (NodeDef ex_no_value))
              (of_list [PyTensor ex_a; PyTensor ex_b]) "[2, None]"
              ex_printer [])
    as (p1 & E1 & E2); try reflexivity.
  - cbv. repeat constructor.
  - exists p1. split; [exact E1 | now rewrite E2].
Defined.

Lemma nested_op_error_propagates_witness :
  tf_dprint ex_eq ex_str ex_full ex_summary (PyTensor ex_over_eager)
    (Some ex_printer) []
  = (Some (AttributeError
             "Tensor.op is meaningless when eager execution is enabled."),
     Some (MkPrinter
             [line ex_printer (PyStr (header "Neg" ex_over_eager "[2, None]"))]
             (py_str ex_str) "" [ex_over_eager]),
     []).
Proof.
  apply (nested_op_error_propagates ex_eq ex_str ex_full ex_summary
           ex_over_eager ex_eager
           (MkOp "Neg" (Inputs (of_list [PyTensor ex_eager]))
              (NodeDef ex_no_value))
           pnil "[2, None]" "[2]"
           (AttributeError
              "Tensor.op is meaningless when eager execution is enabled.")
           ex_printer []); reflexivity.
Defined.

Lemma const_payload_error_propagates_witness :
  dprint_tensor ex_eq ex_full ex_summary ex_const_fail ex_printer
  = Raise (OtherError "RuntimeError" "session closed")
      (MkPrinter [line ex_printer (PyStr (header "Const" ex_const_fail "[]"))]
         (py_str ex_str) "" []).
Proof.
  apply (const_payload_error_propagates ex_eq ex_full ex_summary
           ex_const_fail
           (MkOp "Const" (Inputs pnil) (NodeDef ex_no_value)) "[]"
           (OtherError "RuntimeError" "session closed") ex_printer);
    reflexivity.
Defined.

Lemma root_op_error_passes_witness :
  tf_dprint ex_eq ex_str ex_full ex_summary (PyTensor ex_broken) None []
  = (Some (OtherError "RuntimeError" "graph is closed"), None, []).
Proof.
  apply (root_op_error_passes ex_eq ex_str ex_full ex_summary ex_broken
           (OtherError "RuntimeError" "graph is closed") None []);
    try reflexivity.
  intros msg. discriminate.
Defined.

Lemma placeholder_inputs_printed_witness :
  dprint_tensor ex_eq ex_full ex_summary ex_inputs_var ex_printer
  = Normal (MkPrinter
              [line ex_printer (PyStr (header "Add" ex_inputs_var "[None]"));
               ("|  " ++ "~_5" ++ nl)%string]
              (py_str ex_str) "" []).
Proof.
  apply (placeholder_inputs_printed ex_eq ex_full ex_summary ex_inputs_var
           (MkOp "Add" (InputsVar "~_5") (NodeDefVar "~_6"))
           "~_5" "[None]" ex_printer); reflexivity.
Defined.

Lemma placeholder_node_def_printed_witness :
  dprint_tensor ex_eq ex_full ex_summary ex_const_var ex_printer
  = Normal (MkPrinter
              [line ex_printer (PyStr (header "Const" ex_const_var "[]"));
               ("|  " ++ "~_7" ++ nl)%string]
              (py_str ex_str) "" []).
Proof.
  apply (placeholder_node_def_printed ex_eq ex_full ex_summary ex_const_var
           (MkOp "Const" (Inputs pnil) (NodeDefVar "~_7"))
           "~_7" "[]" ex_printer); reflexivity.
Defined.

Lemma chain_prints_headers_witness :
  dprint_tensor ex_eq ex_full ex_summary ex_n2 ex_printer
  = Normal (MkPrinter
              [(header "Neg" ex_n2 "[2, None]" ++ nl)%string;
               ("|  " ++ header "Exp" ex_n1 "[2, None]" ++ nl)%string;
               ("|  |  " ++ header "Placeholder" ex_x "[2, None]" ++ nl)%string]
              (py_str ex_str) "" [ex_n1; ex_n2]).
Proof.
  apply (chain_prints_headers ex_eq ex_full ex_summary ex_n2
           [ex_n2; ex_n1; ex_x]
           [header "Neg" ex_n2 "[2, None]";
            header "Exp" ex_n1 "[2, None]";
            header "Placeholder" ex_x "[2, None]"]
           ex_printer).
  eapply chain_link; try reflexivity.
  eapply chain_link; try reflexivity.
  apply chain_end; reflexivity.
Defined.
